(** * Real-estate wholesaling backend: deals and dashboard routers

    A shallow embedding of [app/routers/deals.py] and
    [app/routers/dashboard.py] together with the parts of [app/models.py]
    and [app/schemas.py] they read and write.

    - Money columns are SQLAlchemy [Float] / pydantic [float]: IEEE binary64,
      embedded as primitive floats.
    - Nullable columns and [Optional] fields are [option].
    - Tables are finite maps from the integer primary key to the row.
    - A request handler is a computation over the ORM session, the committed
      database and the UTC clock that either returns or raises. *)

From Stdlib Require Import PrimFloat ZArith String Ascii List Lia.
From stdpp Require Import gmap strings list fin_maps pretty.

#[local] Set Warnings "-inexact-float,-clear-no-such-hyp".
#[local] Open Scope Z_scope.

(* ===================================================================== *)
(** ** Python runtime fragments *)
(* ===================================================================== *)

Module Py.

(** Exceptions the handlers can raise. [HTTPException] is raised by the
    handlers themselves, the others by the interpreter or by [datetime]. *)
Inductive Error : Type :=
| HTTPException (status_code : Z) (detail : string)
| TypeError
| AttributeError
| OverflowError.

Inductive result (A : Type) : Type :=
| Ok (a : A)
| Raise (e : Error).
Arguments Ok {A} a.
Arguments Raise {A} e.

Definition is_ok {A} (r : result A) : bool :=
  match r with Ok _ => true | Raise _ => false end.

(** [bool(x)] for [x : Optional[float]]: [None] and zeros are falsy,
    everything else (NaN included) is truthy. *)
Definition truthy (x : option float) : bool :=
  match x with
  | None => false
  | Some f => negb (PrimFloat.eqb f 0%float)
  end.

(** [a - b] on [Optional[float]] operands: [None] on either side is a
    [TypeError] (unsupported operand type). *)
Definition sub (a b : option float) : result float :=
  match a, b with
  | Some x, Some y => Ok (PrimFloat.sub x y)
  | _, _ => Raise TypeError
  end.

(** [a * 0.10] with [a : Optional[float]]. *)
Definition mul_const (a : option float) (c : float) : result float :=
  match a with
  | Some x => Ok (PrimFloat.mul x c)
  | None => Raise TypeError
  end.

(** [float(x or 0)] where [x] is the scalar of a SQL [SUM]: [None] and
    both zeros become the integer [0], then [float(0)] is [0.0]. *)
Definition float_or_zero (x : option float) : float :=
  if truthy x then default 0%float x else 0%float.

(** *** [datetime] and [timedelta]

    A naive [datetime] is its number of microseconds since
    [datetime.min] = 0001-01-01T00:00:00. *)
Definition datetime := Z.

Definition US_PER_DAY : Z := 86400000000.
(** [date.max.toordinal()] = 3652059, the ordinal of 9999-12-31. *)
Definition MAXORDINAL : Z := 3652059.
Definition datetime_min : datetime := 0.
Definition datetime_max : datetime := MAXORDINAL * US_PER_DAY - 1.
(** 1970-01-01 has ordinal 719163. *)
Definition unix_epoch : datetime := 719162 * US_PER_DAY.

Definition in_range (d : Z) : bool :=
  (datetime_min <=? d) && (d <=? datetime_max).

(** [timedelta(days=n)]: magnitudes above 999999999 days overflow. *)
Definition timedelta_days (n : Z) : result Z :=
  if (Z.abs n <=? 999999999) then Ok (n * US_PER_DAY) else Raise OverflowError.

(** [d - delta]: the result must be a representable [datetime]. *)
Definition datetime_sub (d : datetime) (delta : Z) : result datetime :=
  if in_range (d - delta) then Ok (d - delta) else Raise OverflowError.

(** Proleptic Gregorian calendar, after [datetime]'s [_ord2ymd];
    the argument is the ordinal, 1 for 0001-01-01. *)
Definition DI400Y : Z := 146097.
Definition DI100Y : Z := 36524.
Definition DI4Y : Z := 1461.

Definition DAYS_IN_MONTH (m : Z) : Z :=
  match m with
  | 1 => 31 | 2 => 28 | 3 => 31 | 4 => 30 | 5 => 31 | 6 => 30
  | 7 => 31 | 8 => 31 | 9 => 30 | 10 => 31 | 11 => 30 | 12 => 31
  | _ => 0
  end.

Definition DAYS_BEFORE_MONTH (m : Z) : Z :=
  match m with
  | 1 => 0 | 2 => 31 | 3 => 59 | 4 => 90 | 5 => 120 | 6 => 151
  | 7 => 181 | 8 => 212 | 9 => 243 | 10 => 273 | 11 => 304 | 12 => 334
  | _ => 365
  end.

Definition ord2ymd (ordinal : Z) : Z * Z * Z :=
  let n := ordinal - 1 in
  let n400 := n / DI400Y in
  let n := n mod DI400Y in
  let n100 := n / DI100Y in
  let n := n mod DI100Y in
  let n4 := n / DI4Y in
  let n := n mod DI4Y in
  let n1 := n / 365 in
  let n := n mod 365 in
  let year := n400 * 400 + 1 + n100 * 100 + n4 * 4 + n1 in
  if (n1 =? 4) || (n100 =? 4) then (year - 1, 12, 31)
  else
    let leapyear := (n1 =? 3) && (negb (n4 =? 24) || (n100 =? 3)) in
    let month := Z.shiftr (n + 50) 5 in
    let preceding :=
      DAYS_BEFORE_MONTH month + (if (2 <? month) && leapyear then 1 else 0) in
    if n <? preceding then
      let month' := month - 1 in
      let preceding' :=
        preceding
        - (DAYS_IN_MONTH month' + (if (month' =? 2) && leapyear then 1 else 0)) in
      (year, month', n - preceding' + 1)
    else (year, month, n - preceding + 1).

Definition year_month (d : datetime) : Z * Z :=
  let '(y, m, _) := ord2ymd (d / US_PER_DAY + 1) in (y, m).

Definition digit (n : Z) : string :=
  String (ascii_of_nat (48 + Z.to_nat (n mod 10))) EmptyString.

(** [d.strftime("%Y-%m")] as the C library prints it: the year in decimal
    without leading zeros (four digits from the year 1000 on), the month
    on two digits. *)
Definition strftime_Ym (d : datetime) : string :=
  let '(y, m) := year_month d in
  (pretty y ++ "-" ++ digit (m / 10) ++ digit m)%string.

(** [range(n)]. *)
Definition range (n : Z) : list Z :=
  map Z.of_nat (seq 0 (Z.to_nat n)).

End Py.

Import Py.

#[global] Arguments US_PER_DAY : simpl never.
#[global] Arguments datetime_max : simpl never.
#[global] Arguments in_range : simpl never.
#[global] Arguments timedelta_days : simpl never.
#[global] Arguments datetime_sub : simpl never.
#[global] Arguments strftime_Ym : simpl never.
#[global] Arguments float_or_zero : simpl never.

(* ===================================================================== *)
(** ** app/models.py *)
(* ===================================================================== *)

Inductive PropertyStatus : Type := AVAILABLE | UNDER_CONTRACT | SOLD | OFF_MARKET.
Inductive LeadStatus : Type := NEW | CONTACTED | INTERESTED | NOT_INTERESTED | CONVERTED.
Inductive DealStatus : Type := PENDING | APPROVED | REJECTED | CLOSED.

#[global] Instance PropertyStatus_eq_dec : EqDecision PropertyStatus.
Proof. solve_decision. Defined.
#[global] Instance LeadStatus_eq_dec : EqDecision LeadStatus.
Proof. solve_decision. Defined.
#[global] Instance DealStatus_eq_dec : EqDecision DealStatus.
Proof. solve_decision. Defined.

(** Rows carry the columns the deals and dashboard routers read or write;
    the primary key [id] is the key of the table. The other columns are
    left out, among them [updated_at], which the database rewrites on
    every UPDATE of a row: statements about a row speak of the columns
    listed here. *)
Module Property.
Record t : Type := mk {
  arv : option float;
  purchase_price : option float;
  status : option PropertyStatus;
  sold_date : option datetime;
}.
Definition set_status (v : option PropertyStatus) (p : t) : t :=
  mk (arv p) (purchase_price p) v (sold_date p).
Definition set_sold_date (v : option datetime) (p : t) : t :=
  mk (arv p) (purchase_price p) (status p) v.
End Property.

Module Lead.
Record t : Type := mk {
  status : option LeadStatus;
}.
End Lead.

Module Deal.
Record t : Type := mk {
  property_id : option Z;
  lead_id : option Z;
  agent_id : option Z;
  status : option DealStatus;
  offer_price : option float;
  closing_date : option datetime;
  wholesale_fee : option float;
  net_profit : option float;
  notes : option string;
  created_at : option datetime;
}.

(** A column name paired with a value of the column's type: one item of
    the dictionaries [DealCreate.dict()] and [DealUpdate.dict()] and of
    the keyword arguments of the [Deal] constructor. *)
Inductive attr : Type :=
| a_property_id (v : option Z)
| a_lead_id (v : option Z)
| a_agent_id (v : option Z)
| a_status (v : option DealStatus)
| a_offer_price (v : option float)
| a_closing_date (v : option datetime)
| a_wholesale_fee (v : option float)
| a_net_profit (v : option float)
| a_notes (v : option string).

Definition key (a : attr) : string :=
  match a with
  | a_property_id _ => "property_id"
  | a_lead_id _ => "lead_id"
  | a_agent_id _ => "agent_id"
  | a_status _ => "status"
  | a_offer_price _ => "offer_price"
  | a_closing_date _ => "closing_date"
  | a_wholesale_fee _ => "wholesale_fee"
  | a_net_profit _ => "net_profit"
  | a_notes _ => "notes"
  end.

(** [setattr(deal, field, value)]. *)
Definition setattr (a : attr) (d : t) : t :=
  match a with
  | a_property_id v =>
      mk v (lead_id d) (agent_id d) (status d) (offer_price d) (closing_date d)
         (wholesale_fee d) (net_profit d) (notes d) (created_at d)
  | a_lead_id v =>
      mk (property_id d) v (agent_id d) (status d) (offer_price d) (closing_date d)
         (wholesale_fee d) (net_profit d) (notes d) (created_at d)
  | a_agent_id v =>
      mk (property_id d) (lead_id d) v (status d) (offer_price d) (closing_date d)
         (wholesale_fee d) (net_profit d) (notes d) (created_at d)
  | a_status v =>
      mk (property_id d) (lead_id d) (agent_id d) v (offer_price d) (closing_date d)
         (wholesale_fee d) (net_profit d) (notes d) (created_at d)
  | a_offer_price v =>
      mk (property_id d) (lead_id d) (agent_id d) (status d) v (closing_date d)
         (wholesale_fee d) (net_profit d) (notes d) (created_at d)
  | a_closing_date v =>
      mk (property_id d) (lead_id d) (agent_id d) (status d) (offer_price d) v
         (wholesale_fee d) (net_profit d) (notes d) (created_at d)
  | a_wholesale_fee v =>
      mk (property_id d) (lead_id d) (agent_id d) (status d) (offer_price d)
         (closing_date d) v (net_profit d) (notes d) (created_at d)
  | a_net_profit v =>
      mk (property_id d) (lead_id d) (agent_id d) (status d) (offer_price d)
         (closing_date d) (wholesale_fee d) v (notes d) (created_at d)
  | a_notes v =>
      mk (property_id d) (lead_id d) (agent_id d) (status d) (offer_price d)
         (closing_date d) (wholesale_fee d) (net_profit d) v (created_at d)
  end.

(** A transient instance before any keyword is applied: every column
    attribute reads [None]. *)
Definition blank : t := mk None None None None None None None None None None.

(** The declarative constructor: one [setattr] per keyword, in order. *)
Definition init (kwargs : list attr) : t :=
  fold_left (fun d a => setattr a d) kwargs blank.
End Deal.

Record Store : Type := mkStore {
  properties : gmap Z Property.t;
  leads : gmap Z Lead.t;
  deals : gmap Z Deal.t;
}.

(* ===================================================================== *)
(** ** app/schemas.py *)
(* ===================================================================== *)

Module DealCreate.
(** [DealBase] fields followed by [agent_id]. *)
Record t : Type := mk {
  property_id : Z;
  lead_id : Z;
  offer_price : float;
  closing_date : option datetime;
  wholesale_fee : option float;
  net_profit : option float;
  notes : option string;
  agent_id : Z;
}.

(** [deal.dict()]: every field, in declaration order. *)
Definition dict (d : t) : list Deal.attr :=
  [ Deal.a_property_id (Some (property_id d));
    Deal.a_lead_id (Some (lead_id d));
    Deal.a_offer_price (Some (offer_price d));
    Deal.a_closing_date (closing_date d);
    Deal.a_wholesale_fee (wholesale_fee d);
    Deal.a_net_profit (net_profit d);
    Deal.a_notes (notes d);
    Deal.a_agent_id (Some (agent_id d)) ].
End DealCreate.

Module DealUpdate.
(** Every field is [Optional] with default [None]; the outer [option]
    records whether the request set the field at all. *)
Record t : Type := mk {
  offer_price : option (option float);
  status : option (option DealStatus);
  closing_date : option (option datetime);
  wholesale_fee : option (option float);
  net_profit : option (option float);
  notes : option (option string);
}.

Definition item {A} (c : option A -> Deal.attr) (f : option (option A))
  : list Deal.attr :=
  match f with
  | Some v => [c v]
  | None => []
  end.

(** [deal_update.dict(exclude_unset=True)]. *)
Definition dict_exclude_unset (u : t) : list Deal.attr :=
  item Deal.a_offer_price (offer_price u)
  ++ item Deal.a_status (status u)
  ++ item Deal.a_closing_date (closing_date u)
  ++ item Deal.a_wholesale_fee (wholesale_fee u)
  ++ item Deal.a_net_profit (net_profit u)
  ++ item Deal.a_notes (notes u).
End DealUpdate.

(** [key in d] for a dictionary given by its items. *)
Definition has_key (k : string) (d : list Deal.attr) : bool :=
  existsb (fun a => String.eqb (Deal.key a) k) d.

(** A call that passes keywords both by unpacking the dictionary [expanded]
    and explicitly: a keyword given both ways is a [TypeError] (multiple
    values for keyword argument). *)
Definition merge_kwargs (expanded explicit : list Deal.attr)
  : result (list Deal.attr) :=
  if existsb (fun a => has_key (Deal.key a) expanded) explicit
  then Raise TypeError
  else Ok (expanded ++ explicit).

(* ===================================================================== *)
(** ** The ORM session *)
(* ===================================================================== *)

(** What a handler runs against: the committed database, the session's
    working copy of it, and the UTC clock given by its successive readings
    ([utc k] is what the [k]-th call of [datetime.utcnow()] returns). *)
Record World : Type := mkWorld {
  committed : Store;
  session : Store;
  utc : nat -> datetime;
  ticks : nat;
}.

(** A handler body: runs on a world and returns or raises. *)
Definition M (A : Type) : Type := World -> result A * World.

#[global] Instance result_ret : MRet result := fun A a => Ok a.
#[global] Instance result_bind : MBind result := fun A B f r =>
  match r with
  | Ok a => f a
  | Raise e => Raise e
  end.

#[global] Instance M_ret : MRet M := fun A a w => (Ok a, w).
#[global] Instance M_bind : MBind M := fun A B f m w =>
  match m w with
  | (Ok a, w') => f a w'
  | (Raise e, w') => (Raise e, w')
  end.

Definition raise {A} (e : Error) : M A := fun w => (Raise e, w).

Definition lift {A} (r : result A) : M A := fun w => (r, w).

Definition get_session : M Store := fun w => (Ok (session w), w).

Definition put_session (s : Store) : M unit := fun w =>
  (Ok tt, mkWorld (committed w) s (utc w) (ticks w)).

(** [datetime.utcnow()]. *)
Definition utcnow : M datetime := fun w =>
  (Ok (utc w (ticks w)), mkWorld (committed w) (session w) (utc w) (S (ticks w))).

(** [db.commit()]. *)
Definition db_commit : M unit := fun w =>
  (Ok tt, mkWorld (session w) (session w) (utc w) (ticks w)).

(** [for x in l: body(x)]. *)
Fixpoint for_each {A} (l : list A) (body : A -> M unit) : M unit :=
  match l with
  | [] => mret tt
  | x :: l' => body x ;; for_each l' body
  end.

(** A loop that threads a local variable [acc] through its iterations. *)
Fixpoint for_acc {A B} (l : list A) (body : B -> A -> M B) (acc : B) : M B :=
  match l with
  | [] => mret acc
  | x :: l' => acc' ← body acc x; for_acc l' body acc'
  end.

(** A mapped [Deal] object is a reference into the session: it is
    represented by its primary key, attribute writes go to the session. *)
Definition deal_setattr (deal_id : Z) (a : Deal.attr) : M unit :=
  s ← get_session;
  put_session (mkStore (properties s) (leads s) (alter (Deal.setattr a) deal_id (deals s))).

Definition property_update (property_id : Z) (f : Property.t -> Property.t) : M unit :=
  s ← get_session;
  put_session (mkStore (alter f property_id (properties s)) (leads s) (deals s)).

(** Reading the attributes of [db_deal]; the handlers only do so after
    [first()] returned the object. *)
Definition deal_read (deal_id : Z) : M Deal.t :=
  s ← get_session;
  match deals s !! deal_id with
  | Some d => mret d
  | None => raise AttributeError
  end.

(** [db_deal.property] followed by an attribute access: the many-to-one
    relationship loads the row whose key is [db_deal.property_id], or
    [None], on which any attribute access is an [AttributeError]. *)
Definition deal_property (deal_id : Z) : M (Z * Property.t) :=
  s ← get_session;
  match deals s !! deal_id ≫= Deal.property_id with
  | Some pid =>
      match properties s !! pid with
      | Some p => mret (pid, p)
      | None => raise AttributeError
      end
  | None => raise AttributeError
  end.

(** Primary key of the next inserted row. *)
Definition next_id {A} (t : gmap Z A) : Z :=
  1 + map_fold (fun k _ acc => Z.max k acc) 0 t.

(** [db.add(db_deal)], flushed: the row gets its key, the column default
    of [status] and the server default of [created_at]. *)
Definition db_add (d : Deal.t) : M Z :=
  s ← get_session;
  now ← utcnow;
  let id := next_id (deals s) in
  let row :=
    Deal.mk (Deal.property_id d) (Deal.lead_id d) (Deal.agent_id d)
      (Some (default PENDING (Deal.status d)))
      (Deal.offer_price d) (Deal.closing_date d) (Deal.wholesale_fee d)
      (Deal.net_profit d) (Deal.notes d) (Some now) in
  put_session (mkStore (properties s) (leads s) (<[id := row]> (deals s)));;
  mret id.

(** [db.refresh(db_deal)] and the read of the returned object. *)
Definition db_refresh (deal_id : Z) : M Deal.t := deal_read deal_id.

(** SQL [SUM] over a nullable float column: nulls are skipped, and the sum
    of no value at all is null. The values are added in the order the
    rows are listed; the database adds them in the order of its scan. *)
Definition sql_sum (column : list (option float)) : option float :=
  match omap id column with
  | [] => None
  | vs => Some (fold_left PrimFloat.add vs 0%float)
  end.

(** [db.query(func.sum(Deal.net_profit)).filter(...).scalar()]. *)
Definition sum_net_profit (where_ : Deal.t -> bool) : M (option float) :=
  s ← get_session;
  mret (sql_sum (Deal.net_profit <$> filter (fun d => where_ d = true) (map_to_list (deals s)).*2)).

(** [db.query(func.count(T.id)).filter(...).scalar()]. *)
Definition sql_count {A} (where_ : A -> bool) (t : gmap Z A) : Z :=
  Z.of_nat (length (filter (fun r => where_ r = true) (map_to_list t).*2)).

(** SQL comparisons: a null operand never satisfies the filter. *)
Definition status_is (st : DealStatus) (d : Deal.t) : bool :=
  bool_decide (Deal.status d = Some st).

Definition created_ge (t : datetime) (d : Deal.t) : bool :=
  match Deal.created_at d with
  | Some c => t <=? c
  | None => false
  end.

Definition created_lt (t : datetime) (d : Deal.t) : bool :=
  match Deal.created_at d with
  | Some c => c <? t
  | None => false
  end.

(** One request: the handler runs on a fresh session over the database;
    what it committed is the database afterwards. *)
Definition request {A} (handler : M A) (db : Store) (clock : nat -> datetime)
  : result A * Store :=
  let '(r, w) := handler (mkWorld db db clock 0%nat) in (r, committed w).

(* ===================================================================== *)
(** ** app/routers/deals.py *)
(* ===================================================================== *)

(** The wholesale fee and net profit of [create_deal]: the [if]/[else]
    that follows the two existence checks, as a function of [property.arv],
    [property.purchase_price] and [deal.offer_price]. *)
Definition computeDealFinancials (arv purchase_price offer_price : option float)
  : result (option float * option float) :=
  if truthy arv && truthy offer_price then
    wholesale_fee ← mul_const arv 0.10%float;
    spread ← sub offer_price purchase_price;
    net_profit ← sub (Some wholesale_fee) (Some spread);
    mret (Some wholesale_fee, Some net_profit)
  else
    mret (None, None).

Definition create_deal (deal : DealCreate.t) (current_user_id : Z) : M Deal.t :=
  s ← get_session;
  match properties s !! DealCreate.property_id deal with
  | None => raise (HTTPException 404 "Property not found")
  | Some property =>
      match leads s !! DealCreate.lead_id deal with
      | None => raise (HTTPException 404 "Lead not found")
      | Some lead =>
          '(wholesale_fee, net_profit) ←
            lift (computeDealFinancials (Property.arv property)
                    (Property.purchase_price property)
                    (Some (DealCreate.offer_price deal)));
          kwargs ←
            lift (merge_kwargs (DealCreate.dict deal)
                    [ Deal.a_agent_id (Some current_user_id);
                      Deal.a_wholesale_fee wholesale_fee;
                      Deal.a_net_profit net_profit ]);
          db_deal ← db_add (Deal.init kwargs);
          db_commit;;
          db_refresh db_deal
      end
  end.

Definition update_deal (deal_id : Z) (deal_update : DealUpdate.t) : M Deal.t :=
  s ← get_session;
  match deals s !! deal_id with
  | None => raise (HTTPException 404 "Deal not found")
  | Some _ =>
      let update_data := DealUpdate.dict_exclude_unset deal_update in
      for_each update_data (deal_setattr deal_id);;
      (if has_key "offer_price" update_data then
         '(_, property) ← deal_property deal_id;
         if truthy (Property.arv property) then
           wholesale_fee ← lift (mul_const (Property.arv property) 0.10%float);
           deal_setattr deal_id (Deal.a_wholesale_fee (Some wholesale_fee));;
           db_deal ← deal_read deal_id;
           spread ← lift (sub (Deal.offer_price db_deal)
                              (Property.purchase_price property));
           net_profit ← lift (sub (Deal.wholesale_fee db_deal) (Some spread));
           deal_setattr deal_id (Deal.a_net_profit (Some net_profit))
         else mret tt
       else mret tt);;
      db_commit;;
      db_refresh deal_id
  end.

Definition update_deal_status (deal_id : Z) (status : DealStatus) : M DealStatus :=
  s ← get_session;
  match deals s !! deal_id with
  | None => raise (HTTPException 404 "Deal not found")
  | Some _ =>
      deal_setattr deal_id (Deal.a_status (Some status));;
      (if decide (status = CLOSED) then
         '(property_id, _) ← deal_property deal_id;
         property_update property_id (Property.set_status (Some SOLD));;
         now ← utcnow;
         property_update property_id (Property.set_sold_date (Some now))
       else mret tt);;
      db_commit;;
      db_refresh deal_id;;
      mret status
  end.

Record DealsAnalytics : Type := mkDealsAnalytics {
  da_total_deals : Z;
  da_deals_by_status : list (option DealStatus * Z);
  da_total_revenue : float;
  da_monthly_revenue : float;
}.

(** [GROUP BY Deal.status] with [COUNT]: one pair per status present. *)
Definition deals_by_status (t : gmap Z Deal.t) : list (option DealStatus * Z) :=
  filter (fun g => 0 < g.2)
    ((fun st => (st, sql_count (fun d => bool_decide (Deal.status d = st)) t))
       <$> [None; Some PENDING; Some APPROVED; Some REJECTED; Some CLOSED]).

Definition get_deals_analytics : M DealsAnalytics :=
  s ← get_session;
  let total_deals := sql_count (fun _ => true) (deals s) in
  let by_status := deals_by_status (deals s) in
  total_revenue ← sum_net_profit (status_is CLOSED);
  now ← utcnow;
  delta ← lift (timedelta_days 30);
  thirty_days_ago ← lift (datetime_sub now delta);
  monthly_revenue ←
    sum_net_profit (fun d => status_is CLOSED d && created_ge thirty_days_ago d);
  mret (mkDealsAnalytics total_deals by_status
          (float_or_zero total_revenue) (float_or_zero monthly_revenue)).

(* ===================================================================== *)
(** ** app/routers/dashboard.py *)
(* ===================================================================== *)

Record DashboardStats : Type := mkDashboardStats {
  total_properties : Z;
  available_properties : Z;
  total_leads : Z;
  new_leads : Z;
  total_deals : Z;
  pending_deals : Z;
  total_revenue : float;
  monthly_revenue : float;
}.

Definition get_dashboard_stats : M DashboardStats :=
  s ← get_session;
  let total_properties := sql_count (fun _ => true) (properties s) in
  let available_properties :=
    sql_count (fun p => bool_decide (Property.status p = Some AVAILABLE)) (properties s) in
  let total_leads := sql_count (fun _ => true) (leads s) in
  let new_leads :=
    sql_count (fun l => bool_decide (Lead.status l = Some NEW)) (leads s) in
  let total_deals := sql_count (fun _ => true) (deals s) in
  let pending_deals := sql_count (status_is PENDING) (deals s) in
  total_revenue ← sum_net_profit (status_is CLOSED);
  now ← utcnow;
  delta ← lift (timedelta_days 30);
  thirty_days_ago ← lift (datetime_sub now delta);
  monthly_revenue ←
    sum_net_profit (fun d => status_is CLOSED d && created_ge thirty_days_ago d);
  mret (mkDashboardStats total_properties available_properties total_leads
          new_leads total_deals pending_deals
          (float_or_zero total_revenue) (float_or_zero monthly_revenue)).

Record MonthRevenue : Type := mkMonthRevenue {
  month : string;
  revenue : float;
}.

(** One iteration of the loop of [get_monthly_revenue]. *)
Definition monthly_revenue_step (monthly_data : list MonthRevenue) (i : Z)
  : M (list MonthRevenue) :=
  now ← utcnow;
  delta ← lift (timedelta_days (30 * (i + 1)));
  start_date ← lift (datetime_sub now delta);
  now' ← utcnow;
  delta' ← lift (timedelta_days (30 * i));
  end_date ← lift (datetime_sub now' delta');
  revenue ←
    sum_net_profit (fun d =>
      status_is CLOSED d && created_ge start_date d && created_lt end_date d);
  mret (monthly_data ++ [mkMonthRevenue (strftime_Ym start_date) (float_or_zero revenue)]).

Definition get_monthly_revenue (months : Z) : M (list MonthRevenue) :=
  monthly_data ← for_acc (range months) monthly_revenue_step [];
  mret (rev monthly_data).

(* ===================================================================== *)
(** ** The remaining handlers of the two routers *)
(* ===================================================================== *)

(** [get_deals] of [deals.py]. The filters are applied when their
    argument is truthy: a [DealStatus] always is, an [agent_id] of 0 is
    not. The rows come in the order the table yields them; [skip] and
    [limit] are taken non-negative (what a negative [OFFSET] or [LIMIT]
    does is left to the database). *)
Definition get_deals (skip limit : Z) (status : option DealStatus)
    (agent_id : option Z) : M (list (Z * Deal.t)) :=
  s ← get_session;
  let query := map_to_list (deals s) in
  let query :=
    match status with
    | Some st => filter (fun r => status_is st r.2 = true) query
    | None => query
    end in
  let query :=
    match agent_id with
    | Some a =>
        if bool_decide (a = 0) then query
        else filter (fun r => Deal.agent_id r.2 = Some a) query
    | None => query
    end in
  mret (take (Z.to_nat limit) (drop (Z.to_nat skip) query)).

(** [get_deal] of [deals.py]. *)
Definition get_deal (deal_id : Z) : M Deal.t :=
  s ← get_session;
  match deals s !! deal_id with
  | None => raise (HTTPException 404 "Deal not found")
  | Some deal => mret deal
  end.

(** [delete_deal] of [deals.py]; the returned message is constant. *)
Definition delete_deal (deal_id : Z) : M string :=
  s ← get_session;
  match deals s !! deal_id with
  | None => raise (HTTPException 404 "Deal not found")
  | Some _ =>
      put_session (mkStore (properties s) (leads s) (delete deal_id (deals s)));;
      db_commit;;
      mret "Deal deleted successfully"%string
  end.

(** [GROUP BY status] with [COUNT(id)], then [dict(...)]: one entry per
    status present in the table, null included. *)
Definition status_counts {A S : Type} `{EqDecision S} (members : list S)
    (column : A -> option S) (t : gmap Z A) : list (option S * Z) :=
  filter (fun g => 0 < g.2)
    ((fun st => (st, sql_count (fun r => bool_decide (column r = st)) t))
       <$> (None :: (Some <$> members))).

Definition PropertyStatus_members : list PropertyStatus :=
  [AVAILABLE; UNDER_CONTRACT; SOLD; OFF_MARKET].
Definition LeadStatus_members : list LeadStatus :=
  [NEW; CONTACTED; INTERESTED; NOT_INTERESTED; CONVERTED].
Definition DealStatus_members : list DealStatus :=
  [PENDING; APPROVED; REJECTED; CLOSED].

(** The three distribution handlers of [dashboard.py]. *)
Definition get_property_status_distribution : M (list (option PropertyStatus * Z)) :=
  s ← get_session;
  mret (status_counts PropertyStatus_members Property.status (properties s)).

Definition get_lead_status_distribution : M (list (option LeadStatus * Z)) :=
  s ← get_session;
  mret (status_counts LeadStatus_members Lead.status (leads s)).

Definition get_deal_status_distribution : M (list (option DealStatus * Z)) :=
  s ← get_session;
  mret (deals_by_status (deals s)).

(** The total of the counts of a distribution. *)
Definition total_count {S : Type} (dist : list (option S * Z)) : Z :=
  foldr Z.add 0 dist.*2.

(** A patch that sets no field. *)
Definition empty_patch : DealUpdate.t :=
  DealUpdate.mk None None None None None None.

(** The clock of a later request: the readings from the [n]-th on. *)
Definition later (clock : nat -> datetime) (n : nat) : nat -> datetime :=
  fun k => clock (n + k)%nat.

(* ===================================================================== *)
(** ** Vocabulary of the statements *)
(* ===================================================================== *)

(** The field-by-field patch: the [setattr] loop of [update_deal] applied
    to one row. *)
Definition apply_patch (update_data : list Deal.attr) (d : Deal.t) : Deal.t :=
  fold_left (fun d a => Deal.setattr a d) update_data d.

(** The store after a committed write of row [d'] at [deal_id]. *)
Definition with_deal (db : Store) (deal_id : Z) (d' : Deal.t) : Store :=
  mkStore (properties db) (leads db) (<[deal_id := d']> (deals db)).

(** The row [update_deal] leaves for a deal whose row is [d]: the patch,
    then, when the patch has an offer price, the recomputation from the
    linked property. *)
Definition update_deal_row (db : Store) (d : Deal.t) (u : DealUpdate.t)
  : result Deal.t :=
  let d1 := apply_patch (DealUpdate.dict_exclude_unset u) d in
  match DealUpdate.offer_price u with
  | None => Ok d1
  | Some _ =>
      match Deal.property_id d ≫= (fun pid => properties db !! pid) with
      | None => Raise AttributeError
      | Some p =>
          if truthy (Property.arv p) then
            fee ← mul_const (Property.arv p) 0.10%float;
            spread ← sub (Deal.offer_price d1) (Property.purchase_price p);
            profit ← sub (Some fee) (Some spread);
            Ok (Deal.setattr (Deal.a_net_profit (Some profit))
                  (Deal.setattr (Deal.a_wholesale_fee (Some fee)) d1))
          else Ok d1
      end
  end.

(** What the filters of [get_deals] ask of a row: the status when one is
    given, the agent when a non-zero one is given. *)
Definition deal_matches (status : option DealStatus) (agent_id : option Z)
    (d : Deal.t) : Prop :=
  (forall st, status = Some st -> Deal.status d = Some st)
  /\ (forall a, agent_id = Some a -> a <> 0 -> Deal.agent_id d = Some a).

(** Number of rows of a table whose status column holds [st]. *)
Definition rows_with_status {A S : Type} `{EqDecision S}
    (column : A -> option S) (st : option S) (t : gmap Z A) : Z :=
  sql_count (fun r => bool_decide (column r = st)) t.


(** The Gregorian calendar, stated without the conversion algorithm:
    leap years, the lengths of the months, and the number of days between
    0001-01-01 and the first day of a month. *)
Definition is_leap (y : Z) : bool :=
  (y mod 4 =? 0) && (negb (y mod 100 =? 0) || (y mod 400 =? 0)).

Definition month_days (leap : bool) (m : Z) : Z :=
  match m with
  | 1 => 31 | 2 => if leap then 29 else 28 | 3 => 31 | 4 => 30
  | 5 => 31 | 6 => 30 | 7 => 31 | 8 => 31 | 9 => 30 | 10 => 31
  | 11 => 30 | 12 => 31
  | _ => 0
  end.

Definition months_before (leap : bool) (m : Z) : Z :=
  foldr Z.add 0 (month_days leap <$> (Z.of_nat <$> seq 1 (Z.to_nat (m - 1)))).

Definition month_length (y m : Z) : Z := month_days (is_leap y) m.

Definition days_before_year (y : Z) : Z :=
  let p := y - 1 in 365 * p + p / 4 - p / 100 + p / 400.

Definition month_start (y m : Z) : Z :=
  days_before_year y + months_before (is_leap y) m.

(** The instant [t] lies in month [m] of year [y]. *)
Definition in_month (y m : Z) (t : datetime) : Prop :=
  month_start y m * US_PER_DAY <= t
  < (month_start y m + month_length y m) * US_PER_DAY.

(** The month and day that [ord2ymd] derives from the day of the year
    (counted from 0) and the leap flag, and the check of one such day
    against the calendar. *)
Definition month_day (leapyear : bool) (n : Z) : Z * Z :=
  let month := Z.shiftr (n + 50) 5 in
  let preceding :=
    DAYS_BEFORE_MONTH month + (if (2 <? month) && leapyear then 1 else 0) in
  if n <? preceding then
    let month' := month - 1 in
    let preceding' :=
      preceding
      - (DAYS_IN_MONTH month' + (if (month' =? 2) && leapyear then 1 else 0)) in
    (month', n - preceding' + 1)
  else (month, n - preceding + 1).

Definition month_day_ok (leap : bool) (n : Z) : bool :=
  let '(m, d) := month_day leap n in
  (1 <=? m) && (m <=? 12) && (1 <=? d) && (d <=? month_days leap m)
  && (months_before leap m + d =? n + 1).

(** The rows of the deals table that satisfy a filter, and the revenue
    reported for them. *)
Definition matching (where_ : Deal.t -> bool) (db : Store) : list Deal.t :=
  filter (fun d => where_ d = true) (map_to_list (deals db)).*2.

Definition reported_revenue (where_ : Deal.t -> bool) (db : Store) : float :=
  float_or_zero (sql_sum (Deal.net_profit <$> matching where_ db)).

(** The window of the [i]-th bucket of the monthly series when the clock
    is read at [clock]: the start is computed from reading [2i], the end
    from reading [2i+1]. *)
Definition window_start (clock : nat -> datetime) (i : Z) : datetime :=
  clock (2 * Z.to_nat i)%nat - 30 * (i + 1) * US_PER_DAY.

Definition window_end (clock : nat -> datetime) (i : Z) : datetime :=
  clock (2 * Z.to_nat i + 1)%nat - 30 * i * US_PER_DAY.

Definition in_window (clock : nat -> datetime) (i : Z) (d : Deal.t) : bool :=
  status_is CLOSED d && created_ge (window_start clock i) d
  && created_lt (window_end clock i) d.

Definition bucket (db : Store) (clock : nat -> datetime) (i : Z) : MonthRevenue :=
  mkMonthRevenue (strftime_Ym (window_start clock i))
    (reported_revenue (in_window clock i) db).

(** The cutoff of the "last 30 days" revenue. *)
Definition thirty_days_before (t : datetime) : datetime := t - 30 * US_PER_DAY.

(** The first [n] readings of the clock are [datetime]s. *)
Definition valid_clock (clock : nat -> datetime) (n : nat) : Prop :=
  forall k, (k < n)%nat -> in_range (clock k) = true.

(** Both bounds of the first [months] windows are representable dates. *)
Definition windows_representable (clock : nat -> datetime) (months : Z) : Prop :=
  forall i, 0 <= i < months ->
    in_range (window_start clock i) = true /\ in_range (window_end clock i) = true.

(** The session-level frame: a body that only reads leaves both the
    session and the committed database as they were. *)
Definition read_only {A} (m : M A) : Prop :=
  forall w, committed (m w).2 = committed w /\ session (m w).2 = session w
            /\ utc (m w).2 = utc w.

(* ===================================================================== *)
(** ** Sample data *)
(* ===================================================================== *)

(** A clock that starts on 2024-03-01T00:00:00 and advances by one
    microsecond per reading. *)
Definition sample_clock : nat -> datetime :=
  fun k => 738945 * US_PER_DAY + Z.of_nat k.

(** Property 1 has every price, property 2 no after-repair value,
    property 3 no purchase price, property 4 an after-repair value of 0. *)
Definition sample_properties : gmap Z Property.t :=
  <[1 := Property.mk (Some 200000%float) (Some 120000%float) (Some AVAILABLE) None]>
  (<[2 := Property.mk None (Some 120000%float) (Some AVAILABLE) None]>
  (<[3 := Property.mk (Some 200000%float) None (Some AVAILABLE) None]>
  (<[4 := Property.mk (Some 0%float) (Some 120000%float) (Some SOLD) (Some 5)]> ∅))).

Definition sample_deal (property_id : Z) (status : DealStatus) (created : Z) : Deal.t :=
  Deal.mk (Some property_id) (Some 1) (Some 7) (Some status) (Some 140000%float)
    None (Some 20000%float) (Some 5000%float) None (Some (created * US_PER_DAY)).

(** Deal [k] is linked to property [k]; deals 2 and 4 are closed. *)
Definition sample_deals : gmap Z Deal.t :=
  <[1 := sample_deal 1 PENDING 738900]>
  (<[2 := sample_deal 2 CLOSED 738930]>
  (<[3 := sample_deal 3 APPROVED 738940]>
  (<[4 := sample_deal 4 CLOSED 738800]> ∅))).

Definition sample_db : Store :=
  mkStore sample_properties (<[1 := Lead.mk (Some NEW)]> ∅) sample_deals.

Definition sample_create (property_id : Z) : DealCreate.t :=
  DealCreate.mk property_id 1 140000%float None None None None 7.

(** A store with one deal, closed, of profit 5000, created one
    microsecond after 2024-01-31T00:00:00. *)
Definition overlap_deal : Deal.t :=
  Deal.mk (Some 1) (Some 1) (Some 7) (Some CLOSED) (Some 140000%float) None
    (Some 20000%float) (Some 5000%float) None (Some (738915 * US_PER_DAY + 1)).

Definition overlap_db : Store :=
  mkStore sample_properties (<[1 := Lead.mk (Some NEW)]> ∅) (<[1 := overlap_deal]> ∅).

(** A patch that sets only [offer_price]. *)
Definition patch_offer_price (v : float) : DealUpdate.t :=
  DealUpdate.mk (Some (Some v)) None None None None None.

(** A patch that sets only [status]. *)
Definition patch_status (st : DealStatus) : DealUpdate.t :=
  DealUpdate.mk None (Some (Some st)) None None None None.

(* ===================================================================== *)
(** ** Running handler bodies *)
(* ===================================================================== *)

Create HintDb ro.

Ltac mrun :=
  unfold mbind, mret, M_bind, M_ret, result_bind, result_ret, raise, lift,
    get_session, put_session, db_commit, utcnow in *; simpl in *.

Lemma read_only_ret {A} (a : A) : read_only (mret a : M A).
Proof. intros w. by mrun. Qed.

Lemma read_only_lift {A} (r : result A) : read_only (lift r).
Proof. intros w. by mrun. Qed.

Lemma read_only_raise {A} (e : Error) : read_only (raise e : M A).
Proof. intros w. by mrun. Qed.

Lemma read_only_get_session : read_only get_session.
Proof. intros w. by mrun. Qed.

Lemma read_only_utcnow : read_only utcnow.
Proof. intros w. by mrun. Qed.

Lemma read_only_bind {A B} (m : M A) (f : A -> M B) :
  read_only m -> (forall a, read_only (f a)) -> read_only (m ≫= f).
Proof.
  intros Hm Hf w. unfold mbind, M_bind.
  destruct (Hm w) as (Hc & Hs & Hu).
  destruct (m w) as [[a|e] w'] eqn:E; simpl in *.
  - destruct (Hf a w') as (Hc' & Hs' & Hu'). by rewrite Hc', Hs', Hu'.
  - done.
Qed.

Lemma read_only_sum_net_profit where_ : read_only (sum_net_profit where_).
Proof.
  unfold sum_net_profit. apply read_only_bind; [apply read_only_get_session|].
  intros s. apply read_only_ret.
Qed.

Lemma read_only_for_acc {A B} (l : list A) (body : B -> A -> M B) :
  (forall acc x, read_only (body acc x)) ->
  forall acc, read_only (for_acc l body acc).
Proof.
  intros Hb. induction l as [|x l IH]; intros acc; simpl.
  - apply read_only_ret.
  - apply read_only_bind; [apply Hb | intros acc'; apply IH].
Qed.

Lemma read_only_request {A} (m : M A) db clock :
  read_only m -> (request m db clock).2 = db.
Proof.
  intros H. unfold request.
  destruct (H (mkWorld db db clock 0%nat)) as (Hc & _).
  destruct (m _) as [r w]. done.
Qed.

#[local] Hint Resolve read_only_ret read_only_lift read_only_raise
  read_only_get_session read_only_utcnow read_only_sum_net_profit : ro.

Ltac read_only_tac :=
  repeat first
    [ apply read_only_bind; [|intros ?]
    | apply read_only_for_acc; intros ? ?
    | solve [auto with ro] ].

(* ===================================================================== *)
(** ** The deal financial calculation *)
(* ===================================================================== *)

Lemma truthy_Some f : truthy (Some f) = negb (PrimFloat.eqb f 0%float).
Proof. reflexivity. Qed.

Lemma financials_null_arv p o : computeDealFinancials None p o = Ok (None, None).
Proof. reflexivity. Qed.

Lemma financials_null_offer a p : computeDealFinancials a p None = Ok (None, None).
Proof. unfold computeDealFinancials. simpl. by rewrite andb_false_r. Qed.

Lemma financials_zero_arv a p o :
  PrimFloat.eqb a 0%float = true ->
  computeDealFinancials (Some a) p o = Ok (None, None).
Proof. intros H. unfold computeDealFinancials. simpl. by rewrite H. Qed.

Lemma financials_zero_offer a p o :
  PrimFloat.eqb o 0%float = true ->
  computeDealFinancials a p (Some o) = Ok (None, None).
Proof.
  intros H. unfold computeDealFinancials. simpl. rewrite H. simpl.
  by rewrite andb_false_r.
Qed.

Lemma financials_present a p o :
  PrimFloat.eqb a 0%float = false -> PrimFloat.eqb o 0%float = false ->
  computeDealFinancials (Some a) (Some p) (Some o)
  = Ok (Some (a * 0.10)%float, Some (a * 0.10 - (o - p))%float).
Proof. intros Ha Ho. unfold computeDealFinancials. simpl. by rewrite Ha, Ho. Qed.

Lemma financials_null_purchase a o :
  PrimFloat.eqb a 0%float = false -> PrimFloat.eqb o 0%float = false ->
  computeDealFinancials (Some a) None (Some o) = Raise TypeError.
Proof. intros Ha Ho. unfold computeDealFinancials. simpl. by rewrite Ha, Ho. Qed.

(** C1, as stated, fails: with an after-repair value of 0 (present, not
    null) the calculation returns [(None, None)], not the fee [0 * 0.10]
    and the profit [0 * 0.10 - (140000 - 120000)]. *)
Lemma C1_zero_arv_counterexample :
  computeDealFinancials (Some 0%float) (Some 120000%float) (Some 140000%float)
  = Ok (None, None)
  /\ computeDealFinancials (Some 0%float) (Some 120000%float) (Some 140000%float)
     <> Ok (Some (0 * 0.10)%float, Some (0 * 0.10 - (140000 - 120000))%float).
Proof. split; [reflexivity | vm_compute; discriminate]. Qed.

(** C1 (amended): the result is [(None, None)] when the after-repair value
    or the offer price is null or zero; when both are present and non-zero
    and the purchase price is present, the fee is [arv * 0.10] and the
    profit is [fee - (offer_price - purchase_price)]; the two worked
    examples of the specification hold. *)
Theorem C1_computeDealFinancials :
  (forall p o, computeDealFinancials None p o = Ok (None, None))
  /\ (forall a p, computeDealFinancials a p None = Ok (None, None))
  /\ (forall a p o, PrimFloat.eqb a 0%float = true ->
        computeDealFinancials (Some a) p o = Ok (None, None))
  /\ (forall a p o, PrimFloat.eqb o 0%float = true ->
        computeDealFinancials a p (Some o) = Ok (None, None))
  /\ (forall a p o,
        PrimFloat.eqb a 0%float = false -> PrimFloat.eqb o 0%float = false ->
        computeDealFinancials (Some a) (Some p) (Some o)
        = Ok (Some (a * 0.10)%float, Some (a * 0.10 - (o - p))%float))
  /\ computeDealFinancials (Some 200000%float) (Some 120000%float) (Some 140000%float)
     = Ok (Some 20000%float, Some 0%float)
  /\ computeDealFinancials (Some 300000%float) (Some 150000%float) (Some 160000%float)
     = Ok (Some 30000%float, Some 20000%float).
Proof.
  split; [apply financials_null_arv|].
  split; [apply financials_null_offer|].
  split; [apply financials_zero_arv|].
  split; [apply financials_zero_offer|].
  split; [apply financials_present|].
  split; reflexivity.
Qed.

Lemma C1_computeDealFinancials_witness :
  computeDealFinancials (Some 250000%float) (Some 100000%float) (Some 110000%float)
  = Ok (Some (250000 * 0.10)%float, Some (250000 * 0.10 - (110000 - 100000))%float)
  /\ computeDealFinancials (Some (-0)%float) (Some 100000%float) (Some 110000%float)
     = Ok (None, None).
Proof.
  destruct C1_computeDealFinancials as (_ & _ & Hz & _ & Hp & _).
  split.
  - apply Hp; reflexivity.
  - apply Hz; reflexivity.
Defined.

(** C2 (the code departs from it): with the after-repair value and the
    offer price present and the purchase price null, the subtraction
    raises [TypeError], in the calculation itself, in [create_deal] on a
    property without purchase price, and in [update_deal] when a patch
    sets the offer price of a deal linked to such a property. *)
Theorem C2_null_purchase_price_raises :
  computeDealFinancials (Some 200000%float) None (Some 140000%float) = Raise TypeError
  /\ request (create_deal (sample_create 3) 7) sample_db sample_clock
     = (Raise TypeError, sample_db)
  /\ request (update_deal 3 (patch_offer_price 150000%float)) sample_db sample_clock
     = (Raise TypeError, sample_db).
Proof. split; [reflexivity|]. split; vm_compute; reflexivity. Qed.

(* ===================================================================== *)
(** ** [create_deal] *)
(* ===================================================================== *)

Lemma merge_kwargs_create deal agent fee profit :
  merge_kwargs (DealCreate.dict deal)
    [Deal.a_agent_id agent; Deal.a_wholesale_fee fee; Deal.a_net_profit profit]
  = Raise TypeError.
Proof. reflexivity. Qed.

(** What [create_deal] does on any world: one of three exceptions, and the
    world is left as it was. *)
Lemma create_deal_run deal uid w :
  create_deal deal uid w =
  (match properties (session w) !! DealCreate.property_id deal with
   | None => Raise (HTTPException 404 "Property not found")
   | Some property =>
       match leads (session w) !! DealCreate.lead_id deal with
       | None => Raise (HTTPException 404 "Lead not found")
       | Some _ =>
           match computeDealFinancials (Property.arv property)
                   (Property.purchase_price property)
                   (Some (DealCreate.offer_price deal)) with
           | Ok _ => Raise TypeError
           | Raise e => Raise e
           end
       end
   end, w).
Proof.
  unfold create_deal. mrun.
  destruct (properties (session w) !! _) as [property|]; [|done].
  destruct (leads (session w) !! _) as [lead|]; [|done].
  destruct (computeDealFinancials _ _ _) as [[fee profit]|e]; done.
Qed.

(** C3: [create_deal] raises on every input and inserts nothing. The
    keyword merge of the constructor call is a [TypeError] whatever the
    values, so that with both referenced rows present and the financial
    calculation done the handler raises [TypeError]. *)
Theorem C3_create_deal_always_raises deal uid db clock :
  (exists e, request (create_deal deal uid) db clock = (Raise e, db))
  /\ (forall fee profit,
        merge_kwargs (DealCreate.dict deal)
          [Deal.a_agent_id (Some uid); Deal.a_wholesale_fee fee; Deal.a_net_profit profit]
        = Raise TypeError)
  /\ (forall property lead financials,
        properties db !! DealCreate.property_id deal = Some property ->
        leads db !! DealCreate.lead_id deal = Some lead ->
        computeDealFinancials (Property.arv property) (Property.purchase_price property)
          (Some (DealCreate.offer_price deal)) = Ok financials ->
        request (create_deal deal uid) db clock = (Raise TypeError, db)).
Proof.
  unfold request. rewrite create_deal_run. simpl.
  split; [|split].
  - destruct (properties db !! _) as [property|]; [|by eexists].
    destruct (leads db !! _) as [lead|]; [|by eexists].
    destruct (computeDealFinancials _ _ _); by eexists.
  - intros. apply merge_kwargs_create.
  - intros property lead financials -> -> ->. done.
Qed.

Lemma C3_create_deal_always_raises_witness :
  request (create_deal (sample_create 1) 7) sample_db sample_clock
  = (Raise TypeError, sample_db).
Proof.
  refine (proj2 (proj2 (C3_create_deal_always_raises (sample_create 1) 7
            sample_db sample_clock))
            (Property.mk (Some 200000%float) (Some 120000%float) (Some AVAILABLE) None)
            (Lead.mk (Some NEW)) (Some 20000%float, Some 0%float) _ _ _);
    reflexivity.
Defined.

(** C8: [create_deal] answers 404 exactly when the referenced property or
    the referenced lead is not in the store; in every case the store is
    left unchanged, so no deal is inserted. *)
Theorem C8_create_deal_not_found deal uid db clock :
  ((exists detail,
      (request (create_deal deal uid) db clock).1 = Raise (HTTPException 404 detail))
   <-> (properties db !! DealCreate.property_id deal = None
        \/ leads db !! DealCreate.lead_id deal = None))
  /\ (request (create_deal deal uid) db clock).2 = db.
Proof.
  unfold request. rewrite create_deal_run. simpl. split; [|done].
  destruct (properties db !! _) as [property|] eqn:Hp.
  - destruct (leads db !! _) as [lead|] eqn:Hl.
    + split.
      * intros [detail H].
        unfold computeDealFinancials in H. mrun.
        destruct (truthy _ && _); [|done].
        destruct (Property.arv property); [|done]. simpl in H.
        destruct (Property.purchase_price property); done.
      * intros [?|?]; done.
    + split; [by right | by eexists].
  - split; [by left | by eexists].
Qed.

Lemma C8_create_deal_not_found_witness :
  exists detail,
    (request (create_deal (sample_create 9) 7) sample_db sample_clock).1
    = Raise (HTTPException 404 detail).
Proof.
  apply (proj1 (C8_create_deal_not_found (sample_create 9) 7 sample_db sample_clock)).
  left. reflexivity.
Defined.

(* ===================================================================== *)
(** ** [update_deal] *)
(* ===================================================================== *)

Lemma for_each_setattr l : forall deal_id d w,
  deals (session w) !! deal_id = Some d ->
  for_each l (deal_setattr deal_id) w
  = (Ok tt,
     mkWorld (committed w)
       (mkStore (properties (session w)) (leads (session w))
          (<[deal_id := apply_patch l d]> (deals (session w))))
       (utc w) (ticks w)).
Proof.
  induction l as [|a l IH]; intros deal_id d [c [ps ls ds] u t] Hd; simpl in *.
  - mrun. by rewrite insert_id.
  - unfold mbind, M_bind. unfold deal_setattr at 1. mrun.
    rewrite (alter_alt_Some _ _ _ _ Hd).
    erewrite IH by (simpl; apply lookup_insert_eq).
    simpl. by rewrite insert_insert_eq.
Qed.

Section patch_facts.
Variables (u : DealUpdate.t) (d : Deal.t).
Let d' := apply_patch (DealUpdate.dict_exclude_unset u) d.

Lemma patch_property_id : Deal.property_id d' = Deal.property_id d.
Proof. subst d'. destruct u as [[?|] [?|] [?|] [?|] [?|] [?|]]; reflexivity. Qed.

Lemma patch_lead_id : Deal.lead_id d' = Deal.lead_id d.
Proof. subst d'. destruct u as [[?|] [?|] [?|] [?|] [?|] [?|]]; reflexivity. Qed.

Lemma patch_agent_id : Deal.agent_id d' = Deal.agent_id d.
Proof. subst d'. destruct u as [[?|] [?|] [?|] [?|] [?|] [?|]]; reflexivity. Qed.

Lemma patch_created_at : Deal.created_at d' = Deal.created_at d.
Proof. subst d'. destruct u as [[?|] [?|] [?|] [?|] [?|] [?|]]; reflexivity. Qed.

Lemma patch_offer_price_field :
  Deal.offer_price d' = default (Deal.offer_price d) (DealUpdate.offer_price u).
Proof. subst d'. destruct u as [[?|] [?|] [?|] [?|] [?|] [?|]]; reflexivity. Qed.

Lemma patch_status_field :
  Deal.status d' = default (Deal.status d) (DealUpdate.status u).
Proof. subst d'. destruct u as [[?|] [?|] [?|] [?|] [?|] [?|]]; reflexivity. Qed.

Lemma patch_closing_date_field :
  Deal.closing_date d' = default (Deal.closing_date d) (DealUpdate.closing_date u).
Proof. subst d'. destruct u as [[?|] [?|] [?|] [?|] [?|] [?|]]; reflexivity. Qed.

Lemma patch_wholesale_fee_field :
  Deal.wholesale_fee d' = default (Deal.wholesale_fee d) (DealUpdate.wholesale_fee u).
Proof. subst d'. destruct u as [[?|] [?|] [?|] [?|] [?|] [?|]]; reflexivity. Qed.

Lemma patch_net_profit_field :
  Deal.net_profit d' = default (Deal.net_profit d) (DealUpdate.net_profit u).
Proof. subst d'. destruct u as [[?|] [?|] [?|] [?|] [?|] [?|]]; reflexivity. Qed.

Lemma patch_notes_field :
  Deal.notes d' = default (Deal.notes d) (DealUpdate.notes u).
Proof. subst d'. destruct u as [[?|] [?|] [?|] [?|] [?|] [?|]]; reflexivity. Qed.

End patch_facts.

Lemma patch_has_offer_price u :
  has_key "offer_price" (DealUpdate.dict_exclude_unset u)
  = bool_decide (is_Some (DealUpdate.offer_price u)).
Proof. destruct u as [[?|] [?|] [?|] [?|] [?|] [?|]]; reflexivity. Qed.

Lemma update_deal_missing deal_id u db clock :
  deals db !! deal_id = None ->
  request (update_deal deal_id u) db clock
  = (Raise (HTTPException 404 "Deal not found"), db).
Proof. intros H. unfold request, update_deal. mrun. by rewrite H. Qed.

Ltac update_deal_start Hd :=
  unfold request, update_deal;
  unfold mbind at 1, M_bind at 1, get_session at 1; simpl;
  rewrite Hd;
  unfold mbind at 1, M_bind at 1;
  match type of Hd with
  | deals ?db !! ?i = Some ?d =>
      rewrite (for_each_setattr _ i d (mkWorld db db _ _) Hd)
  end; simpl.

Lemma update_deal_no_offer deal_id u db clock d :
  deals db !! deal_id = Some d ->
  DealUpdate.offer_price u = None ->
  request (update_deal deal_id u) db clock
  = (Ok (apply_patch (DealUpdate.dict_exclude_unset u) d),
     with_deal db deal_id (apply_patch (DealUpdate.dict_exclude_unset u) d)).
Proof.
  intros Hd Ho. update_deal_start Hd.
  rewrite patch_has_offer_price, Ho. simpl.
  unfold db_refresh, deal_read. mrun. by rewrite lookup_insert_eq.
Qed.

Lemma update_deal_skip deal_id u db clock d pid p :
  deals db !! deal_id = Some d ->
  Deal.property_id d = Some pid ->
  properties db !! pid = Some p ->
  truthy (Property.arv p) = false ->
  request (update_deal deal_id u) db clock
  = (Ok (apply_patch (DealUpdate.dict_exclude_unset u) d),
     with_deal db deal_id (apply_patch (DealUpdate.dict_exclude_unset u) d)).
Proof.
  intros Hd Hpid Hp Harv. update_deal_start Hd.
  destruct (has_key _ _).
  - unfold deal_property, db_refresh, deal_read. mrun.
    rewrite lookup_insert_eq. simpl. rewrite patch_property_id, Hpid, Hp. simpl.
    rewrite Harv. simpl. by rewrite lookup_insert_eq.
  - unfold db_refresh, deal_read. mrun. by rewrite lookup_insert_eq.
Qed.

Lemma update_deal_recompute deal_id u db clock d pid p a pp ov :
  deals db !! deal_id = Some d ->
  Deal.property_id d = Some pid ->
  properties db !! pid = Some p ->
  DealUpdate.offer_price u = Some (Some ov) ->
  Property.arv p = Some a ->
  PrimFloat.eqb a 0%float = false ->
  Property.purchase_price p = Some pp ->
  let d' :=
    Deal.setattr (Deal.a_net_profit (Some (a * 0.10 - (ov - pp))%float))
      (Deal.setattr (Deal.a_wholesale_fee (Some (a * 0.10)%float))
         (apply_patch (DealUpdate.dict_exclude_unset u) d)) in
  request (update_deal deal_id u) db clock = (Ok d', with_deal db deal_id d').
Proof.
  intros Hd Hpid Hp Ho Harv Ha Hpp d'. update_deal_start Hd.
  rewrite patch_has_offer_price, Ho. simpl.
  unfold deal_property, deal_setattr, db_refresh, deal_read. mrun.
  rewrite lookup_insert_eq. simpl. rewrite patch_property_id, Hpid, Hp. simpl.
  rewrite Harv. simpl. rewrite Ha. simpl.
  rewrite !lookup_alter_eq, !lookup_insert_eq. simpl.
  rewrite patch_offer_price_field, Ho, Hpp. simpl.
  rewrite !lookup_alter_eq, !lookup_insert_eq. simpl.
  unfold with_deal. subst d'. simpl.
  rewrite !(alter_alt_Some _ _ _ _ (lookup_insert_eq _ _ _)).
  by rewrite !insert_insert_eq.
Qed.

(** C4, as stated, fails: deal 2 is linked to a property without
    after-repair value and carries a fee and a profit; after a patch of its
    offer price both are still there, not null. *)
Lemma C4_null_arv_counterexample :
  exists d',
    request (update_deal 2 (patch_offer_price 150000%float)) sample_db sample_clock
    = (Ok d', with_deal sample_db 2 d')
    /\ Deal.offer_price d' = Some 150000%float
    /\ Deal.wholesale_fee d' = Some 20000%float
    /\ Deal.net_profit d' = Some 5000%float.
Proof. eexists. split; [vm_compute; reflexivity|]. repeat split. Qed.

(** C4 (amended): a patch that sets [offer_price] on a deal whose linked
    property exists recomputes the fee and the profit from that property
    when its after-repair value is present and non-zero (and the new offer
    price and the purchase price are present); when the after-repair value
    is null or zero the recomputation is skipped and fee and profit are
    what the field-by-field patch left: the patched value when the patch
    sets the field, the previous value otherwise. *)
Theorem C4_update_deal_offer_price deal_id u db clock d pid p o :
  deals db !! deal_id = Some d ->
  Deal.property_id d = Some pid ->
  properties db !! pid = Some p ->
  DealUpdate.offer_price u = Some o ->
  (forall a pp ov,
     Property.arv p = Some a -> PrimFloat.eqb a 0%float = false ->
     Property.purchase_price p = Some pp -> o = Some ov ->
     exists d',
       request (update_deal deal_id u) db clock = (Ok d', with_deal db deal_id d')
       /\ Deal.wholesale_fee d' = Some (a * 0.10)%float
       /\ Deal.net_profit d' = Some (a * 0.10 - (ov - pp))%float
       /\ Deal.offer_price d' = Some ov)
  /\ ((Property.arv p = None
       \/ exists a, Property.arv p = Some a /\ PrimFloat.eqb a 0%float = true) ->
      exists d',
        request (update_deal deal_id u) db clock = (Ok d', with_deal db deal_id d')
        /\ Deal.wholesale_fee d'
           = default (Deal.wholesale_fee d) (DealUpdate.wholesale_fee u)
        /\ Deal.net_profit d'
           = default (Deal.net_profit d) (DealUpdate.net_profit u)
        /\ Deal.offer_price d' = o).
Proof.
  intros Hd Hpid Hp Ho. split.
  - intros a pp ov Harv Ha Hpp ->.
    eexists. split; [by eapply update_deal_recompute|].
    simpl. split; [done|]. split; [done|].
    by rewrite patch_offer_price_field, Ho.
  - intros Harv. eexists. split.
    + eapply update_deal_skip; [done..|].
      destruct Harv as [->|(a & -> & Ha)]; simpl; [done|by rewrite Ha].
    + rewrite patch_wholesale_fee_field, patch_net_profit_field,
        patch_offer_price_field, Ho. done.
Qed.

Lemma C4_update_deal_offer_price_witness :
  exists d',
    request (update_deal 1 (patch_offer_price 150000%float)) sample_db sample_clock
    = (Ok d', with_deal sample_db 1 d')
    /\ Deal.wholesale_fee d' = Some (200000 * 0.10)%float
    /\ Deal.net_profit d' = Some (200000 * 0.10 - (150000 - 120000))%float
    /\ Deal.offer_price d' = Some 150000%float.
Proof.
  refine (proj1 (C4_update_deal_offer_price 1 (patch_offer_price 150000%float)
            sample_db sample_clock (sample_deal 1 PENDING 738900) 1
            (Property.mk (Some 200000%float) (Some 120000%float) (Some AVAILABLE) None)
            (Some 150000%float) _ _ _ _)
            200000%float 120000%float 150000%float _ _ _ _);
    reflexivity.
Defined.

(** C9: the guards test truthiness. An after-repair value or an offer
    price of zero gives [(None, None)] as a null one does, and a patch of
    the offer price of a deal whose property has an after-repair value of
    zero only applies the patch: nothing is recomputed. *)
Theorem C9_zero_is_falsy :
  (forall a p o, PrimFloat.eqb a 0%float = true ->
     computeDealFinancials (Some a) p o = computeDealFinancials None p o
     /\ computeDealFinancials (Some a) p o = Ok (None, None))
  /\ (forall a p o, PrimFloat.eqb o 0%float = true ->
        computeDealFinancials a p (Some o) = computeDealFinancials a p None
        /\ computeDealFinancials a p (Some o) = Ok (None, None))
  /\ (forall deal_id u db clock d pid p a,
        deals db !! deal_id = Some d ->
        Deal.property_id d = Some pid ->
        properties db !! pid = Some p ->
        is_Some (DealUpdate.offer_price u) ->
        Property.arv p = Some a -> PrimFloat.eqb a 0%float = true ->
        request (update_deal deal_id u) db clock
        = (Ok (apply_patch (DealUpdate.dict_exclude_unset u) d),
           with_deal db deal_id (apply_patch (DealUpdate.dict_exclude_unset u) d))).
Proof.
  split; [|split].
  - intros a p o Ha. by rewrite financials_zero_arv, financials_null_arv.
  - intros a p o Ho. by rewrite financials_zero_offer, financials_null_offer.
  - intros deal_id u db clock d pid p a Hd Hpid Hp _ Harv Ha.
    eapply update_deal_skip; [done..|]. rewrite Harv. simpl. by rewrite Ha.
Qed.

Lemma C9_zero_is_falsy_witness :
  computeDealFinancials (Some 0%float) (Some 120000%float) (Some 140000%float)
  = Ok (None, None)
  /\ computeDealFinancials (Some 200000%float) (Some 120000%float) (Some 0%float)
     = Ok (None, None)
  /\ request (update_deal 4 (patch_offer_price 150000%float)) sample_db sample_clock
     = (Ok (apply_patch (DealUpdate.dict_exclude_unset (patch_offer_price 150000%float))
              (sample_deal 4 CLOSED 738800)),
        with_deal sample_db 4
          (apply_patch (DealUpdate.dict_exclude_unset (patch_offer_price 150000%float))
             (sample_deal 4 CLOSED 738800))).
Proof.
  destruct C9_zero_is_falsy as (Ha & Ho & Hu).
  split; [|split].
  - apply Ha. reflexivity.
  - apply Ho. reflexivity.
  - apply (Hu 4 _ sample_db sample_clock _ 4
             (Property.mk (Some 0%float) (Some 120000%float) (Some SOLD) (Some 5))
             0%float); try reflexivity.
    by eexists.
Defined.

Lemma update_deal_properties deal_id u db clock :
  properties (request (update_deal deal_id u) db clock).2 = properties db.
Proof.
  destruct (deals db !! deal_id) as [d|] eqn:Hd;
    [|by rewrite update_deal_missing].
  update_deal_start Hd.
  unfold deal_property, deal_setattr, db_refresh, deal_read. mrun.
  repeat (case_match; simplify_eq/=; try done).
Qed.

(** C10: the field-patch update never writes to the properties table. In
    particular a patch that sets [status] to closed is applied to the deal
    and leaves the linked property's status and sold date as they were. *)
Theorem C10_update_deal_keeps_properties deal_id u db clock :
  properties (request (update_deal deal_id u) db clock).2 = properties db
  /\ (forall d,
        deals db !! deal_id = Some d ->
        request (update_deal deal_id (patch_status CLOSED)) db clock
        = (Ok (Deal.setattr (Deal.a_status (Some CLOSED)) d),
           with_deal db deal_id (Deal.setattr (Deal.a_status (Some CLOSED)) d))).
Proof.
  split; [apply update_deal_properties|].
  intros d Hd. by rewrite (update_deal_no_offer _ _ _ _ d).
Qed.

Lemma C10_update_deal_keeps_properties_witness :
  request (update_deal 1 (patch_status CLOSED)) sample_db sample_clock
  = (Ok (Deal.setattr (Deal.a_status (Some CLOSED)) (sample_deal 1 PENDING 738900)),
     with_deal sample_db 1
       (Deal.setattr (Deal.a_status (Some CLOSED)) (sample_deal 1 PENDING 738900))).
Proof.
  apply (proj2 (C10_update_deal_keeps_properties 1 (patch_status CLOSED)
                  sample_db sample_clock)).
  reflexivity.
Defined.

(* ===================================================================== *)
(** ** [update_deal_status] *)
(* ===================================================================== *)

Lemma update_deal_status_missing deal_id st db clock :
  deals db !! deal_id = None ->
  request (update_deal_status deal_id st) db clock
  = (Raise (HTTPException 404 "Deal not found"), db).
Proof. intros H. unfold request, update_deal_status. mrun. by rewrite H. Qed.

Lemma update_deal_status_other deal_id st db clock d :
  deals db !! deal_id = Some d ->
  st <> CLOSED ->
  request (update_deal_status deal_id st) db clock
  = (Ok st, with_deal db deal_id (Deal.setattr (Deal.a_status (Some st)) d)).
Proof.
  intros Hd Hst. unfold request, update_deal_status, deal_setattr, db_refresh, deal_read.
  mrun. rewrite Hd. simpl.
  destruct (decide (st = CLOSED)); [done|]. simpl.
  rewrite lookup_alter_eq, Hd. simpl.
  by rewrite (alter_alt_Some _ _ _ _ Hd).
Qed.

Lemma update_deal_status_closed deal_id db clock d pid p :
  deals db !! deal_id = Some d ->
  Deal.property_id d = Some pid ->
  properties db !! pid = Some p ->
  request (update_deal_status deal_id CLOSED) db clock
  = (Ok CLOSED,
     mkStore
       (<[pid := Property.mk (Property.arv p) (Property.purchase_price p)
                   (Some SOLD) (Some (clock 0%nat))]> (properties db))
       (leads db)
       (<[deal_id := Deal.setattr (Deal.a_status (Some CLOSED)) d]> (deals db))).
Proof.
  intros Hd Hpid Hp.
  unfold request, update_deal_status, deal_setattr, deal_property, property_update,
    db_refresh, deal_read.
  mrun. rewrite Hd. simpl.
  rewrite !lookup_alter_eq, Hd. simpl. rewrite Hpid, Hp. simpl.
  rewrite !lookup_alter_eq, Hd. simpl.
  rewrite (alter_alt_Some _ _ _ _ Hd), (alter_alt_Some _ _ _ _ Hp).
  rewrite (alter_alt_Some _ _ _ _ (lookup_insert_eq _ _ _)).
  rewrite insert_insert_eq. simpl. by rewrite Hpid.
Qed.

Lemma update_deal_status_closed_unlinked deal_id db clock d :
  deals db !! deal_id = Some d ->
  Deal.property_id d ≫= (fun pid => properties db !! pid) = None ->
  request (update_deal_status deal_id CLOSED) db clock = (Raise AttributeError, db).
Proof.
  intros Hd Hp.
  unfold request, update_deal_status, deal_setattr, deal_property. mrun.
  rewrite Hd. simpl. rewrite !lookup_alter_eq, Hd. simpl.
  destruct (Deal.property_id d) as [pid|]; simpl in *; [|done].
  by rewrite Hp.
Qed.

(** C5: on a deal with a linked property, changing the status to closed
    sets the property's status to sold and its sold date to the clock
    reading of the request, whatever the deal and the property were before
    (so closing again re-stamps the date); any other new status leaves the
    properties table unchanged; and in both cases a property that was sold
    before is sold afterwards. *)
Theorem C5_update_deal_status deal_id db clock d pid p :
  deals db !! deal_id = Some d ->
  Deal.property_id d = Some pid ->
  properties db !! pid = Some p ->
  (exists db',
     request (update_deal_status deal_id CLOSED) db clock = (Ok CLOSED, db')
     /\ properties db' !! pid
        = Some (Property.mk (Property.arv p) (Property.purchase_price p)
                  (Some SOLD) (Some (clock 0%nat)))
     /\ (forall other, other <> pid -> properties db' !! other = properties db !! other)
     /\ (Deal.status <$> deals db' !! deal_id) = Some (Some CLOSED))
  /\ (forall st, st <> CLOSED ->
        exists db',
          request (update_deal_status deal_id st) db clock = (Ok st, db')
          /\ properties db' = properties db
          /\ (Deal.status <$> deals db' !! deal_id) = Some (Some st))
  /\ (forall st,
        Property.status p = Some SOLD ->
        exists db' p',
          request (update_deal_status deal_id st) db clock = (Ok st, db')
          /\ properties db' !! pid = Some p'
          /\ Property.status p' = Some SOLD).
Proof.
  intros Hd Hpid Hp.
  assert (Hclosed := update_deal_status_closed deal_id db clock d pid p Hd Hpid Hp).
  split; [|split].
  - eexists. split; [exact Hclosed|]. simpl.
    split; [apply lookup_insert_eq|].
    split; [intros other Hne; by apply lookup_insert_ne|].
    by rewrite lookup_insert_eq.
  - intros st Hst. eexists.
    split; [by apply update_deal_status_other|]. simpl.
    split; [done|]. by rewrite lookup_insert_eq.
  - intros st Hsold. destruct (decide (st = CLOSED)) as [->|Hst].
    + do 2 eexists. split; [exact Hclosed|]. simpl.
      split; [apply lookup_insert_eq|done].
    + do 2 eexists. split; [by apply update_deal_status_other|]. simpl.
      split; [exact Hp|done].
Qed.

Lemma C5_update_deal_status_witness :
  exists db',
    request (update_deal_status 2 CLOSED) sample_db sample_clock = (Ok CLOSED, db')
    /\ properties db' !! 2
       = Some (Property.mk None (Some 120000%float) (Some SOLD)
                 (Some (sample_clock 0%nat)))
    /\ (forall other, other <> 2 ->
          properties db' !! other = properties sample_db !! other)
    /\ (Deal.status <$> deals db' !! 2) = Some (Some CLOSED).
Proof.
  apply (proj1 (C5_update_deal_status 2 sample_db sample_clock
                  (sample_deal 2 CLOSED 738930) 2
                  (Property.mk None (Some 120000%float) (Some AVAILABLE) None)
                  eq_refl eq_refl eq_refl)).
Defined.

(* ===================================================================== *)
(** ** [get_monthly_revenue] *)
(* ===================================================================== *)

Lemma for_acc_app {A B} (body : B -> A -> M B) (l1 l2 : list A) : forall acc w,
  for_acc (l1 ++ l2) body acc w
  = match for_acc l1 body acc w with
    | (Ok acc', w') => for_acc l2 body acc' w'
    | (Raise e, w') => (Raise e, w')
    end.
Proof.
  induction l1 as [|x l1 IH]; intros acc w; simpl; [done|].
  unfold mbind, M_bind. destruct (body acc x w) as [[acc'|e] w']; [apply IH|done].
Qed.

Lemma timedelta_days_ok n :
  0 <= n <= 999999999 -> timedelta_days n = Ok (n * US_PER_DAY).
Proof.
  intros H. unfold timedelta_days.
  destruct (Z.leb_spec (Z.abs n) 999999999); [done|lia].
Qed.

Lemma in_range_spec d : in_range d = true <-> 0 <= d <= datetime_max.
Proof. unfold in_range, datetime_min. rewrite andb_true_iff. lia. Qed.

Lemma days_bound x n :
  0 <= x <= datetime_max -> 0 <= x - 30 * (n + 1) * US_PER_DAY -> 0 <= n ->
  0 <= 30 * (n + 1) <= 999999999.
Proof. unfold datetime_max, MAXORDINAL, US_PER_DAY. lia. Qed.

Lemma bind_utcnow {B} (f : datetime -> M B) w :
  (utcnow ≫= f) w
  = f (utc w (ticks w)) (mkWorld (committed w) (session w) (utc w) (S (ticks w))).
Proof. reflexivity. Qed.

Lemma bind_lift_ok {A B} (r : result A) (a : A) (f : A -> M B) w :
  r = Ok a -> (lift r ≫= f) w = f a w.
Proof. by intros ->. Qed.

Lemma bind_lift_raise {A B} (r : result A) e (f : A -> M B) w :
  r = Raise e -> (lift r ≫= f) w = (Raise e, w).
Proof. by intros ->. Qed.

Lemma bind_get_session {B} (f : Store -> M B) w :
  (get_session ≫= f) w = f (session w) w.
Proof. reflexivity. Qed.

Lemma bind_sum_net_profit {B} where_ (f : option float -> M B) w :
  (sum_net_profit where_ ≫= f) w
  = f (sql_sum (Deal.net_profit <$> matching where_ (session w))) w.
Proof. reflexivity. Qed.

Lemma datetime_sub_ok d delta :
  in_range (d - delta) = true -> datetime_sub d delta = Ok (d - delta).
Proof. intros H. unfold datetime_sub. by rewrite H. Qed.

Lemma datetime_sub_overflow d delta :
  in_range (d - delta) = false -> datetime_sub d delta = Raise OverflowError.
Proof. intros H. unfold datetime_sub. by rewrite H. Qed.

(** One iteration whose two bounds are representable. *)
Lemma monthly_revenue_step_ok c db clock a acc :
  in_range (clock (2 * a)%nat) = true ->
  in_range (window_start clock (Z.of_nat a)) = true ->
  in_range (window_end clock (Z.of_nat a)) = true ->
  monthly_revenue_step acc (Z.of_nat a) (mkWorld c db clock (2 * a)%nat)
  = (Ok (acc ++ [bucket db clock (Z.of_nat a)]),
     mkWorld c db clock (2 * S a)%nat).
Proof.
  intros Hc Hs He.
  unfold bucket, reported_revenue, in_window.
  unfold window_start, window_end in *. rewrite Nat2Z.id in *.
  assert (Hd : 0 <= 30 * (Z.of_nat a + 1) <= 999999999).
  { apply (days_bound (clock (2 * a)%nat));
      [exact (proj1 (in_range_spec _) Hc)
      |exact (proj1 (proj1 (in_range_spec _) Hs))
      |apply Nat2Z.is_nonneg]. }
  replace (2 * a + 1)%nat with (S (2 * a)) in He |- * by lia.
  replace (2 * S a)%nat with (S (S (2 * a))) by lia.
  generalize dependent (2 * a)%nat. intros t Hc Hs He.
  unfold monthly_revenue_step.
  rewrite bind_utcnow.
  rewrite (bind_lift_ok _ _ _ _ (timedelta_days_ok _ Hd)).
  rewrite (bind_lift_ok _ _ _ _ (datetime_sub_ok _ _ Hs)).
  rewrite bind_utcnow.
  rewrite (bind_lift_ok _ (30 * Z.of_nat a * US_PER_DAY))
    by (apply timedelta_days_ok; lia).
  rewrite (bind_lift_ok _ _ _ _ (datetime_sub_ok _ _ He)).
  rewrite bind_sum_net_profit.
  reflexivity.
Qed.

Lemma monthly_revenue_loop_ok c db clock : forall n a acc,
  valid_clock clock (2 * (a + n)) ->
  (forall i, Z.of_nat a <= i < Z.of_nat (a + n) ->
     in_range (window_start clock i) = true /\ in_range (window_end clock i) = true) ->
  for_acc (Z.of_nat <$> seq a n) monthly_revenue_step acc (mkWorld c db clock (2 * a)%nat)
  = (Ok (acc ++ (bucket db clock <$> (Z.of_nat <$> seq a n))),
     mkWorld c db clock (2 * (a + n))%nat).
Proof.
  induction n as [|n IH]; intros a acc Hv Hw.
  - replace (a + 0)%nat with a by apply plus_n_O.
    cbn [seq fmap list_fmap for_acc]. unfold mret, M_ret. by rewrite app_nil_r.
  - cbn [seq fmap list_fmap for_acc]. unfold mbind, M_bind.
    destruct (Hw (Z.of_nat a)) as [Hs He].
    { clear. lia. }
    assert (Hc : in_range (clock (2 * a)%nat) = true).
    { apply Hv. clear. lia. }
    rewrite (monthly_revenue_step_ok _ _ _ _ _ Hc Hs He).
    replace (a + S n)%nat with (S a + n)%nat in * by (clear; lia).
    rewrite IH; [|done|].
    + by rewrite <- app_assoc.
    + intros i Hi. apply Hw. clear -Hi. lia.
Qed.

Lemma range_bounds i n : i ∈ range n <-> 0 <= i < n.
Proof.
  unfold range. rewrite list_elem_of_fmap. split.
  - intros (k & -> & Hk). apply elem_of_seq in Hk. lia.
  - intros Hi. exists (Z.to_nat i). split; [lia|]. apply elem_of_seq. lia.
Qed.

(** The series when every window is representable. *)
Lemma get_monthly_revenue_ok months db clock :
  valid_clock clock (2 * Z.to_nat months) ->
  windows_representable clock months ->
  request (get_monthly_revenue months) db clock
  = (Ok (rev (bucket db clock <$> range months)), db).
Proof.
  intros Hv Hw. unfold request, get_monthly_revenue, range.
  unfold mbind, M_bind.
  change (mkWorld db db clock 0) with (mkWorld db db clock (2 * 0)).
  rewrite monthly_revenue_loop_ok; [done|done|].
  intros i Hi. apply Hw. clear -Hi. lia.
Qed.

(** The loop stops with [OverflowError] at the first window whose start
    is not a representable date. *)
Lemma get_monthly_revenue_overflow months k db clock :
  0 <= k < months ->
  valid_clock clock (2 * Z.to_nat k) ->
  windows_representable clock k ->
  in_range (window_start clock k) = false ->
  request (get_monthly_revenue months) db clock = (Raise OverflowError, db).
Proof.
  intros Hk Hv Hw Hbad. unfold request, get_monthly_revenue, range.
  replace (Z.to_nat months) with (Z.to_nat k + S (Z.to_nat (months - k - 1)))%nat
    by (clear -Hk; lia).
  rewrite seq_app, fmap_app. cbn [seq fmap list_fmap].
  unfold mbind at 1, M_bind at 1. rewrite for_acc_app.
  change (mkWorld db db clock 0) with (mkWorld db db clock (2 * 0)).
  rewrite monthly_revenue_loop_ok; [|done|intros i Hi; apply Hw; clear -Hi; lia].
  cbn [for_acc Nat.add]. unfold mbind at 1, M_bind at 1.
  unfold monthly_revenue_step at 1.
  rewrite bind_utcnow. cbn [utc ticks].
  unfold window_start in Hbad.
  rewrite Z2Nat.id by (clear -Hk; lia).
  unfold timedelta_days.
  destruct (Z.abs (30 * (k + 1)) <=? 999999999); [|reflexivity].
  rewrite (bind_lift_ok _ _ _ _ eq_refl).
  rewrite (bind_lift_raise _ _ _ _ (datetime_sub_overflow _ _ Hbad)).
  reflexivity.
Qed.

Lemma sample_clock_valid n : Z.of_nat n <= 100000 -> valid_clock sample_clock n.
Proof.
  intros Hn k Hk. apply in_range_spec.
  unfold sample_clock, datetime_max, MAXORDINAL, US_PER_DAY. lia.
Qed.

Lemma sample_windows k : 0 <= k <= 24631 -> windows_representable sample_clock k.
Proof.
  intros Hk i Hi. rewrite !in_range_spec.
  unfold window_start, window_end, sample_clock, datetime_max, MAXORDINAL, US_PER_DAY.
  lia.
Qed.

(** *** The calendar conversion *)

Ltac split_eqb :=
  repeat match goal with
         | |- context [Z.eqb ?a ?b] => destruct (Z.eqb_spec a b)
         | |- context [Z.ltb ?a ?b] => destruct (Z.ltb_spec a b)
         end.

Lemma days_before_year_normal n400 n100 n4 n1 :
  0 <= n400 -> 0 <= n100 <= 3 -> 0 <= n4 <= 24 -> 0 <= n1 <= 3 ->
  days_before_year (n400 * 400 + 1 + n100 * 100 + n4 * 4 + n1)
  = 146097 * n400 + 36524 * n100 + 1461 * n4 + 365 * n1.
Proof. intros. unfold days_before_year. cbv zeta. Z.div_mod_to_equations. lia. Qed.

Lemma is_leap_normal n400 n100 n4 n1 :
  0 <= n400 -> 0 <= n100 <= 3 -> 0 <= n4 <= 24 -> 0 <= n1 <= 3 ->
  is_leap (n400 * 400 + 1 + n100 * 100 + n4 * 4 + n1)
  = (n1 =? 3) && (negb (n4 =? 24) || (n100 =? 3)).
Proof.
  intros. unfold is_leap. split_eqb; simpl; try reflexivity; exfalso;
    Z.div_mod_to_equations; lia.
Qed.

(** The last day of a leap year, which the algorithm treats apart. *)
Lemma days_before_year_last n400 n100 n4 n1 :
  0 <= n400 -> 0 <= n100 <= 4 -> 0 <= n4 <= 24 -> 0 <= n1 <= 4 ->
  (n1 = 4 /\ n100 <= 3 /\ n4 <= 23) \/ (n100 = 4 /\ n4 = 0 /\ n1 = 0) ->
  days_before_year (n400 * 400 + 1 + n100 * 100 + n4 * 4 + n1 - 1)
  = 146097 * n400 + 36524 * n100 + 1461 * n4 + 365 * n1 - 365
  /\ is_leap (n400 * 400 + 1 + n100 * 100 + n4 * 4 + n1 - 1) = true.
Proof.
  intros. unfold days_before_year, is_leap. cbv zeta. split.
  - Z.div_mod_to_equations. lia.
  - split_eqb; simpl; try reflexivity; exfalso; Z.div_mod_to_equations; lia.
Qed.

Lemma month_day_check :
  forallb (fun k => month_day_ok true (Z.of_nat k) && month_day_ok false (Z.of_nat k))
    (seq 0 365) = true.
Proof. vm_compute. reflexivity. Qed.

Lemma month_day_spec leap n :
  0 <= n < 365 ->
  let '(m, d) := month_day leap n in
  1 <= m <= 12 /\ 1 <= d <= month_days leap m /\ months_before leap m + d = n + 1.
Proof.
  intros Hn. pose proof month_day_check as H.
  rewrite forallb_forall in H. specialize (H (Z.to_nat n)).
  rewrite Z2Nat.id in H by lia.
  assert (Hin : In (Z.to_nat n) (seq 0 365)) by (apply in_seq; lia).
  apply H in Hin. apply andb_true_iff in Hin as [Ht Hf].
  assert (Hok : month_day_ok leap n = true) by (by destruct leap).
  unfold month_day_ok in Hok. destruct (month_day leap n) as [m d].
  rewrite !andb_true_iff, !Z.leb_le, Z.eqb_eq in Hok. lia.
Qed.

(** [ord2ymd] is the inverse of the day count of the calendar: the date
    it returns for an ordinal is a date of the calendar, and that many
    days have passed up to it. *)
Lemma ord2ymd_spec n :
  1 <= n <= MAXORDINAL ->
  let '(y, m, d) := ord2ymd n in
  1 <= y <= 9999 /\ 1 <= m <= 12 /\ 1 <= d <= month_length y m
  /\ month_start y m + d = n.
Proof.
  unfold MAXORDINAL. intros Hn.
  assert (Hcode : ord2ymd n =
    let a := n - 1 in
    let n400 := a / 146097 in let r400 := a mod 146097 in
    let n100 := r400 / 36524 in let r100 := r400 mod 36524 in
    let n4 := r100 / 1461 in let r4 := r100 mod 1461 in
    let n1 := r4 / 365 in let r1 := r4 mod 365 in
    let year := n400 * 400 + 1 + n100 * 100 + n4 * 4 + n1 in
    if (n1 =? 4) || (n100 =? 4) then (year - 1, 12, 31)
    else let '(m, d) :=
           month_day ((n1 =? 3) && (negb (n4 =? 24) || (n100 =? 3))) r1 in
         (year, m, d)).
  { unfold ord2ymd, month_day, DI400Y, DI100Y, DI4Y. cbv zeta.
    destruct (_ || _); [reflexivity|]. by destruct (_ <? _). }
  rewrite Hcode. clear Hcode. cbv zeta.
  set (a := n - 1).
  set (n400 := a / 146097). set (r400 := a mod 146097).
  set (n100 := r400 / 36524). set (r100 := r400 mod 36524).
  set (n4 := r100 / 1461). set (r4 := r100 mod 1461).
  set (n1 := r4 / 365). set (r1 := r4 mod 365).
  assert (Ha : a = 146097 * n400 + r400 /\ 0 <= r400 < 146097 /\ 0 <= n400 <= 24).
  { subst n400 r400 a. Z.div_mod_to_equations. lia. }
  assert (H100 : r400 = 36524 * n100 + r100 /\ 0 <= r100 < 36524 /\ 0 <= n100 <= 4).
  { subst n100 r100. Z.div_mod_to_equations. lia. }
  assert (H4 : r100 = 1461 * n4 + r4 /\ 0 <= r4 < 1461 /\ 0 <= n4 <= 24).
  { subst n4 r4. Z.div_mod_to_equations. lia. }
  assert (H1 : r4 = 365 * n1 + r1 /\ 0 <= r1 < 365 /\ 0 <= n1 <= 4).
  { subst n1 r1. Z.div_mod_to_equations. lia. }
  clearbody n400 r400 n100 r100 n4 r4 n1 r1.
  assert (Hn' : n = a + 1) by (subst a; lia). clearbody a.
  destruct ((n1 =? 4) || (n100 =? 4)) eqn:Hsp.
  - assert (Hcase : (n1 = 4 /\ n100 <= 3 /\ n4 <= 23) \/ (n100 = 4 /\ n4 = 0 /\ n1 = 0)).
    { apply orb_true_iff in Hsp. rewrite !Z.eqb_eq in Hsp. lia. }
    destruct (days_before_year_last n400 n100 n4 n1) as [Hd Hl]; [lia..|done|].
    unfold month_start, month_length. rewrite Hd, Hl.
    change (months_before true 12) with 335. change (month_days true 12) with 31.
    lia.
  - apply orb_false_iff in Hsp. rewrite !Z.eqb_neq in Hsp.
    rewrite <- (is_leap_normal n400 n100 n4 n1) by lia.
    pose proof (month_day_spec (is_leap (n400 * 400 + 1 + n100 * 100 + n4 * 4 + n1)) r1)
      as Hmd.
    destruct (month_day _ r1) as [m d].
    unfold month_start, month_length.
    rewrite days_before_year_normal by lia. lia.
Qed.

Lemma day_of_instant t q len :
  0 <= len -> q <= t / US_PER_DAY < q + len ->
  q * US_PER_DAY <= t < (q + len) * US_PER_DAY.
Proof. unfold US_PER_DAY. intros. Z.div_mod_to_equations. nia. Qed.

Lemma ordinal_range t :
  0 <= t <= datetime_max -> 1 <= t / US_PER_DAY + 1 <= MAXORDINAL.
Proof.
  unfold datetime_max, MAXORDINAL, US_PER_DAY. intros. Z.div_mod_to_equations. lia.
Qed.

(** The year and month of an instant are those of the calendar month that
    contains it. *)
Lemma year_month_spec t :
  in_range t = true ->
  exists y m, year_month t = (y, m)
              /\ 1 <= y <= 9999 /\ 1 <= m <= 12 /\ in_month y m t.
Proof.
  intros Ht%in_range_spec. unfold year_month.
  pose proof (ord2ymd_spec _ (ordinal_range t Ht)) as H.
  destruct (ord2ymd _) as [[y m] d]. destruct H as (Hy & Hm & Hd & Hn).
  exists y, m. split; [done|]. split; [done|]. split; [done|].
  apply day_of_instant; lia.
Qed.

Lemma two_digit_month m :
  1 <= m <= 12 ->
  (digit (m / 10) ++ digit m)%string
  = ((if (m <? 10)%Z then "0" else "") ++ pretty m)%string.
Proof.
  intros Hm.
  assert (m = 1 \/ m = 2 \/ m = 3 \/ m = 4 \/ m = 5 \/ m = 6 \/ m = 7 \/ m = 8
          \/ m = 9 \/ m = 10 \/ m = 11 \/ m = 12) as H by lia.
  repeat destruct H as [->|H]; try subst m; reflexivity.
Qed.

Lemma four_digit_years_check :
  forallb (fun k => Nat.eqb (String.length (pretty (Z.of_nat k))) 4) (seq (Z.to_nat 1000) (Z.to_nat 9000))
  = true.
Proof. vm_compute. reflexivity. Qed.

Lemma four_digit_year y :
  1000 <= y <= 9999 -> String.length (pretty y) = 4%nat.
Proof.
  intros Hy. pose proof four_digit_years_check as H.
  rewrite forallb_forall in H. specialize (H (Z.to_nat y)).
  rewrite Z2Nat.id in H by lia. apply Nat.eqb_eq, H, in_seq. lia.
Qed.

Lemma string_length_app (s1 s2 : string) :
  String.length (s1 ++ s2) = (String.length s1 + String.length s2)%nat.
Proof. induction s1 as [|c s1 IH]; simpl; [done|]. by rewrite IH. Qed.

(** The label of an instant: the year in decimal, a dash, the month on
    two digits; seven characters from the year 1000 on. *)
Lemma strftime_Ym_spec t :
  in_range t = true ->
  exists y m,
    1 <= y <= 9999 /\ 1 <= m <= 12 /\ in_month y m t
    /\ strftime_Ym t = (pretty y ++ "-" ++ (if (m <? 10)%Z then "0" else "") ++ pretty m)%string
    /\ (1000 <= y -> String.length (strftime_Ym t) = 7%nat).
Proof.
  intros Ht. destruct (year_month_spec t Ht) as (y & m & Hym & Hy & Hm & Hin).
  exists y, m. do 3 (split; [done|]).
  unfold strftime_Ym. rewrite Hym.
  split; [by rewrite <- two_digit_month|].
  intros Hy'. rewrite !string_length_app, four_digit_year by lia.
  unfold digit. reflexivity.
Qed.
Lemma series_lookup db clock months k :
  0 <= k < months ->
  rev (bucket db clock <$> range months) !! Z.to_nat k
  = Some (bucket db clock (months - 1 - k)).
Proof.
  intros Hk. rewrite rev_alt. change (rev_append ?l []) with (reverse l).
  unfold range.
  rewrite reverse_lookup by (rewrite !length_fmap, length_seq; lia).
  rewrite !length_fmap, length_seq, !list_lookup_fmap.
  rewrite lookup_seq_lt by lia. simpl. do 2 f_equal. lia.
Qed.


(** *** Which deals a bucket adds up *)

Lemma omap_net_profit (P : Deal.t -> bool) (l : list (Z * Deal.t)) :
  omap id (Deal.net_profit <$> filter (fun d => P d = true) l.*2)
  = omap (fun r => Deal.net_profit r.2) (filter (fun r => P r.2 = true) l).
Proof.
  induction l as [|[k d] l IH]; [done|].
  rewrite fmap_cons. cbn [snd].
  destruct (P d) eqn:HP.
  - rewrite !filter_cons_True by done. csimpl. rewrite IH.
    by destruct (Deal.net_profit d).
  - rewrite !filter_cons_False by (cbn [snd]; congruence). exact IH.
Qed.

(** The reported revenue of a filter is the float sum, from 0 and in the
    order of some duplicate-free listing of exactly the deals that pass
    the filter, of their non-null net profits; a zero total is reported
    as 0. *)
Lemma reported_revenue_rows where_ db :
  exists rows : list (Z * Deal.t),
    NoDup rows.*1
    /\ (forall id d, (id, d) ∈ rows <-> deals db !! id = Some d /\ where_ d = true)
    /\ reported_revenue where_ db
       = let total :=
           fold_left PrimFloat.add (omap (fun r => Deal.net_profit r.2) rows) 0%float in
         if PrimFloat.eqb total 0 then 0%float else total.
Proof.
  exists (filter (fun r => where_ r.2 = true) (map_to_list (deals db))).
  split; [|split].
  - eapply sublist_NoDup; [apply (NoDup_fst_map_to_list (deals db))|].
    apply fmap_sublist, sublist_filter.
  - intros id d. rewrite list_elem_of_filter, elem_of_map_to_list. simpl. tauto.
  - unfold reported_revenue, matching, sql_sum. rewrite omap_net_profit.
    destruct (omap _ _) as [|v vs]; [reflexivity|].
    unfold float_or_zero, truthy. cbv zeta.
    destruct (PrimFloat.eqb _ 0); reflexivity.
Qed.

Lemma in_window_spec clock i d :
  in_window clock i d = true <->
  Deal.status d = Some CLOSED
  /\ exists c, Deal.created_at d = Some c
               /\ window_start clock i <= c < window_end clock i.
Proof.
  unfold in_window, status_is, created_ge, created_lt.
  rewrite !andb_true_iff, bool_decide_eq_true.
  destruct (Deal.created_at d) as [c|].
  - rewrite Z.leb_le, Z.ltb_lt. split.
    + intros [[? ?] ?]. eauto.
    + intros (? & c' & [= <-] & ? & ?). done.
  - split; [by intros [[_ ?] _]|]. by intros (_ & c & ? & _).
Qed.

(** *** Windows that leave the range of dates *)

Lemma timedelta_days_cases n :
  timedelta_days n = Ok (n * US_PER_DAY) \/ timedelta_days n = Raise OverflowError.
Proof. unfold timedelta_days. destruct (_ <=? _); auto. Qed.

Lemma monthly_revenue_step_overflow c db clock a acc :
  in_range (window_start clock (Z.of_nat a)) && in_range (window_end clock (Z.of_nat a))
  = false ->
  exists w', monthly_revenue_step acc (Z.of_nat a) (mkWorld c db clock (2 * a)%nat)
             = (Raise OverflowError, w')
             /\ committed w' = c.
Proof.
  unfold window_start, window_end. rewrite Nat2Z.id.
  replace (2 * a + 1)%nat with (S (2 * a)) by lia.
  generalize (2 * a)%nat. intros t Hbad.
  unfold monthly_revenue_step. rewrite bind_utcnow. cbn [utc ticks committed session].
  destruct (timedelta_days_cases (30 * (Z.of_nat a + 1))) as [H1|H1];
    [rewrite (bind_lift_ok _ _ _ _ H1)
    |rewrite (bind_lift_raise _ _ _ _ H1); by eexists].
  destruct (in_range (clock t - 30 * (Z.of_nat a + 1) * US_PER_DAY)) eqn:Hs;
    [rewrite (bind_lift_ok _ _ _ _ (datetime_sub_ok _ _ Hs))
    |rewrite (bind_lift_raise _ _ _ _ (datetime_sub_overflow _ _ Hs)); by eexists].
  rewrite bind_utcnow. cbn [utc ticks committed session].
  destruct (timedelta_days_cases (30 * Z.of_nat a)) as [H2|H2];
    [rewrite (bind_lift_ok _ _ _ _ H2)
    |rewrite (bind_lift_raise _ _ _ _ H2); by eexists].
  simpl in Hbad.
  rewrite (bind_lift_raise _ _ _ _ (datetime_sub_overflow _ _ Hbad)).
  by eexists.
Qed.

Lemma monthly_revenue_loop_overflow c db clock : forall n a acc,
  valid_clock clock (2 * (a + n)) ->
  (exists i, Z.of_nat a <= i < Z.of_nat (a + n)
             /\ in_range (window_start clock i) && in_range (window_end clock i) = false) ->
  exists w', for_acc (Z.of_nat <$> seq a n) monthly_revenue_step acc
               (mkWorld c db clock (2 * a)%nat)
             = (Raise OverflowError, w')
             /\ committed w' = c.
Proof.
  induction n as [|n IH]; intros a acc Hv (i & Hi & Hbad); [clear -Hi; lia|].
  cbn [seq fmap list_fmap for_acc]. unfold mbind, M_bind.
  destruct (in_range (window_start clock (Z.of_nat a))
            && in_range (window_end clock (Z.of_nat a))) eqn:Ha.
  - apply andb_true_iff in Ha as [Hs He].
    assert (Hc : in_range (clock (2 * a)%nat) = true) by (apply Hv; clear; lia).
    rewrite (monthly_revenue_step_ok _ _ _ _ _ Hc Hs He).
    apply IH.
    + replace (S a + n)%nat with (a + S n)%nat by (clear; lia). exact Hv.
    + exists i. split; [|exact Hbad].
      assert (i <> Z.of_nat a)
        by (intros ->; rewrite Hs, He in Hbad; discriminate).
      clear -Hi H. lia.
  - destruct (monthly_revenue_step_overflow c db clock a acc Ha) as (w' & -> & Hw').
    by exists w'.
Qed.

Lemma get_monthly_revenue_unrepresentable months db clock :
  valid_clock clock (2 * Z.to_nat months) ->
  (exists i, 0 <= i < months
             /\ (window_start clock i < 0 \/ window_end clock i < 0)) ->
  request (get_monthly_revenue months) db clock = (Raise OverflowError, db).
Proof.
  intros Hv (i & Hi & Hbad). unfold request, get_monthly_revenue, range.
  unfold mbind, M_bind.
  change (mkWorld db db clock 0) with (mkWorld db db clock (2 * 0)).
  change (map Z.of_nat (seq 0 (Z.to_nat months)))
    with (Z.of_nat <$> seq 0 (Z.to_nat months)).
  destruct (monthly_revenue_loop_overflow db db clock (Z.to_nat months) 0 [])
    as (w' & -> & Hw'); [exact Hv| |by rewrite Hw'].
  exists i. split; [clear -Hi; lia|].
  apply andb_false_iff.
  destruct Hbad as [H|H]; [left|right]; apply not_true_iff_false;
    rewrite in_range_spec; clear -H; lia.
Qed.

Lemma windows_nonnegative clock months :
  valid_clock clock (2 * Z.to_nat months) ->
  (forall i, 0 <= i < months -> 0 <= window_start clock i /\ 0 <= window_end clock i) ->
  windows_representable clock months.
Proof.
  intros Hv Hw i Hi. destruct (Hw i Hi) as [Hs He].
  assert (H1 : in_range (clock (2 * Z.to_nat i)%nat) = true) by (apply Hv; clear -Hi; lia).
  assert (H2 : in_range (clock (2 * Z.to_nat i + 1)%nat) = true)
    by (apply Hv; clear -Hi; lia).
  apply in_range_spec in H1, H2. rewrite !in_range_spec.
  unfold window_start, window_end in *.
  assert (0 <= 30 * (i + 1) * US_PER_DAY) by (unfold US_PER_DAY; clear -Hi; lia).
  assert (0 <= 30 * i * US_PER_DAY) by (unfold US_PER_DAY; clear -Hi; lia).
  clear -Hs He H1 H2 H H0. lia.
Qed.

Lemma sample_windows_nonnegative k :
  0 <= k <= 24631 ->
  forall i, 0 <= i < k ->
    0 <= window_start sample_clock i /\ 0 <= window_end sample_clock i.
Proof.
  intros Hk i Hi. destruct (sample_windows k Hk i Hi) as [Hs He].
  apply in_range_spec in Hs, He. clear -Hs He. lia.
Qed.

(** C6, as stated, fails, in three ways. Asked on 2024-03-01 for 30000
    months the handler returns no series: the window of index 24631 would
    start before 0001-01-01 and the subtraction raises [OverflowError].
    The clock is read anew for each bound, so the windows are not the
    30-day windows before one instant: with a single closed deal of profit
    5000, created in the microsecond between two readings, both entries of
    the series for 2 months report 5000. And the label of a window that
    starts before the year 1000 has no four-digit year: the oldest entry
    of the series for 12600 months is labelled 989-03. *)
Lemma C6_counterexample :
  request (get_monthly_revenue 30000) sample_db sample_clock
  = (Raise OverflowError, sample_db)
  /\ request (get_monthly_revenue 2) overlap_db sample_clock
     = (Ok [mkMonthRevenue "2024-01" 5000%float; mkMonthRevenue "2024-01" 5000%float],
        overlap_db)
  /\ exists series entry,
       request (get_monthly_revenue 12600) sample_db sample_clock
       = (Ok series, sample_db)
       /\ series !! 0%nat = Some entry
       /\ month entry = "989-03"%string.
Proof.
  split; [|split].
  - apply (get_monthly_revenue_overflow 30000 24631).
    + lia.
    + apply sample_clock_valid. lia.
    + apply sample_windows. lia.
    + reflexivity.
  - vm_compute. reflexivity.
  - do 2 eexists. split.
    + apply get_monthly_revenue_ok.
      * apply sample_clock_valid. lia.
      * apply sample_windows. lia.
    + split.
      * apply (series_lookup sample_db sample_clock 12600 0). lia.
      * vm_compute. reflexivity.
Qed.

(** C6 (amended): let the readings of the clock during the request be
    dates; entry [i] of the series (counting back from now) has the window
    that starts [30 * (i + 1)] days before the clock reading taken for its
    start and ends [30 * i] days before the next reading, taken for its
    end. If no bound of the first [months] windows lies before 0001-01-01,
    the handler returns exactly [months] entries, oldest first (position
    [k] holds entry [months - 1 - k]), and leaves the store unchanged; the
    label of an entry is the year, in decimal, and the two-digit month of
    the calendar month that contains the start of its window (the form
    YYYY-MM from the year 1000 on); its revenue is the float sum, from 0
    and in the order of some listing of exactly the closed deals created
    in [[start, end)], of their non-null net profits, a zero total being
    reported as 0. If some bound lies before 0001-01-01 the handler raises
    [OverflowError] and returns no series. *)
Theorem C6_monthly_revenue_series months db clock :
  0 <= months ->
  valid_clock clock (2 * Z.to_nat months) ->
  ((forall i, 0 <= i < months ->
      0 <= window_start clock i /\ 0 <= window_end clock i) ->
   exists series,
     request (get_monthly_revenue months) db clock = (Ok series, db)
     /\ Z.of_nat (length series) = months
     /\ forall k, 0 <= k < months ->
          exists entry, series !! Z.to_nat k = Some entry
          /\ let i := months - 1 - k in
             let start_date := clock (2 * Z.to_nat i)%nat - 30 * (i + 1) * US_PER_DAY in
             let end_date := clock (2 * Z.to_nat i + 1)%nat - 30 * i * US_PER_DAY in
             (exists y m,
                 1 <= y <= 9999 /\ 1 <= m <= 12
                 /\ month_start y m * US_PER_DAY <= start_date
                    < (month_start y m + month_length y m) * US_PER_DAY
                 /\ month entry
                    = (pretty y ++ "-" ++ (if (m <? 10)%Z then "0" else "") ++ pretty m)%string
                 /\ (1000 <= y -> String.length (month entry) = 7%nat))
             /\ (exists rows : list (Z * Deal.t),
                   NoDup rows.*1
                   /\ (forall id d, (id, d) ∈ rows <->
                         deals db !! id = Some d
                         /\ Deal.status d = Some CLOSED
                         /\ exists c, Deal.created_at d = Some c
                                      /\ start_date <= c < end_date)
                   /\ let total :=
                        fold_left PrimFloat.add
                          (omap (fun r => Deal.net_profit r.2) rows) 0%float in
                      revenue entry = if PrimFloat.eqb total 0 then 0%float else total))
  /\ ((exists i, 0 <= i < months
                 /\ (window_start clock i < 0 \/ window_end clock i < 0)) ->
      request (get_monthly_revenue months) db clock = (Raise OverflowError, db)).
Proof.
  intros Hm Hv. split; [|by apply get_monthly_revenue_unrepresentable].
  intros Hw. apply (windows_nonnegative clock months Hv) in Hw.
  eexists. split; [by apply get_monthly_revenue_ok|].
  split.
  { rewrite length_rev. unfold range. rewrite !length_fmap, length_seq. lia. }
  intros k Hk. eexists. split; [by apply series_lookup|].
  cbv zeta. set (i := months - 1 - k).
  destruct (Hw i) as [Hs He]; [subst i; clear -Hk; lia|].
  split.
  - destruct (strftime_Ym_spec _ Hs) as (y & m & Hy & Hmo & Hin & Hlab & Hlen).
    exists y, m. do 2 (split; [done|]). split; [exact Hin|]. split; [exact Hlab|exact Hlen].
  - destruct (reported_revenue_rows (in_window clock i) db) as (rows & Hnd & Hin & Hrev).
    exists rows. split; [done|]. split; [|exact Hrev].
    intros id d. rewrite Hin, in_window_spec. reflexivity.
Qed.

Lemma C6_monthly_revenue_series_witness :
  exists series,
    request (get_monthly_revenue 3) sample_db sample_clock = (Ok series, sample_db)
    /\ Z.of_nat (length series) = 3.
Proof.
  assert (H0 : 0 <= 3) by lia.
  assert (Hv : valid_clock sample_clock (2 * Z.to_nat 3)).
  { apply sample_clock_valid. simpl. lia. }
  destruct (proj1 (C6_monthly_revenue_series 3 sample_db sample_clock H0 Hv))
    as (series & Hrun & Hlen & _).
  { apply sample_windows_nonnegative. lia. }
  exists series. split; [exact Hrun|exact Hlen].
Defined.
(* ===================================================================== *)
(** ** Aggregates *)
(* ===================================================================== *)

Lemma reported_revenue_empty where_ db :
  matching where_ db = [] -> reported_revenue where_ db = 0%float.
Proof. intros H. unfold reported_revenue. by rewrite H. Qed.

Lemma read_only_get_deals_analytics : read_only get_deals_analytics.
Proof. unfold get_deals_analytics. read_only_tac. Qed.

Lemma read_only_get_dashboard_stats : read_only get_dashboard_stats.
Proof. unfold get_dashboard_stats. read_only_tac. Qed.

Lemma read_only_get_monthly_revenue months : read_only (get_monthly_revenue months).
Proof. unfold get_monthly_revenue, monthly_revenue_step. read_only_tac. Qed.

Lemma get_deals_analytics_ok db clock :
  in_range (thirty_days_before (clock 0%nat)) = true ->
  request get_deals_analytics db clock
  = (Ok (mkDealsAnalytics
           (sql_count (fun _ => true) (deals db))
           (deals_by_status (deals db))
           (reported_revenue (status_is CLOSED) db)
           (reported_revenue
              (fun d => status_is CLOSED d
                        && created_ge (thirty_days_before (clock 0%nat)) d) db)),
     db).
Proof.
  intros H. unfold request, get_deals_analytics.
  rewrite bind_get_session, bind_sum_net_profit, bind_utcnow.
  rewrite (bind_lift_ok (timedelta_days 30) (30 * US_PER_DAY)) by reflexivity.
  rewrite (bind_lift_ok _ _ _ _ (datetime_sub_ok _ _ H)).
  rewrite bind_sum_net_profit. reflexivity.
Qed.

Lemma get_dashboard_stats_ok db clock :
  in_range (thirty_days_before (clock 0%nat)) = true ->
  request get_dashboard_stats db clock
  = (Ok (mkDashboardStats
           (sql_count (fun _ => true) (properties db))
           (sql_count (fun p => bool_decide (Property.status p = Some AVAILABLE))
              (properties db))
           (sql_count (fun _ => true) (leads db))
           (sql_count (fun l => bool_decide (Lead.status l = Some NEW)) (leads db))
           (sql_count (fun _ => true) (deals db))
           (sql_count (status_is PENDING) (deals db))
           (reported_revenue (status_is CLOSED) db)
           (reported_revenue
              (fun d => status_is CLOSED d
                        && created_ge (thirty_days_before (clock 0%nat)) d) db)),
     db).
Proof.
  intros H. unfold request, get_dashboard_stats.
  rewrite bind_get_session, bind_sum_net_profit, bind_utcnow.
  rewrite (bind_lift_ok (timedelta_days 30) (30 * US_PER_DAY)) by reflexivity.
  rewrite (bind_lift_ok _ _ _ _ (datetime_sub_ok _ _ H)).
  rewrite bind_sum_net_profit. reflexivity.
Qed.

(** C7: each revenue aggregate is the float 0 when no deal matches its
    filter (the total over closed deals, the last-30-days total over
    closed deals created since the cutoff, every bucket of the monthly
    series), and the three reporting handlers leave the store unchanged
    whatever they return. *)
Theorem C7_aggregates db clock :
  (in_range (thirty_days_before (clock 0%nat)) = true ->
   exists r,
     request get_deals_analytics db clock = (Ok r, db)
     /\ (matching (status_is CLOSED) db = [] -> da_total_revenue r = 0%float)
     /\ (matching (fun d => status_is CLOSED d
                            && created_ge (thirty_days_before (clock 0%nat)) d) db = [] ->
         da_monthly_revenue r = 0%float))
  /\ (in_range (thirty_days_before (clock 0%nat)) = true ->
      exists r,
        request get_dashboard_stats db clock = (Ok r, db)
        /\ (matching (status_is CLOSED) db = [] -> total_revenue r = 0%float)
        /\ (matching (fun d => status_is CLOSED d
                               && created_ge (thirty_days_before (clock 0%nat)) d) db = [] ->
            monthly_revenue r = 0%float))
  /\ (forall months,
        valid_clock clock (2 * Z.to_nat months) ->
        windows_representable clock months ->
        exists series,
          request (get_monthly_revenue months) db clock = (Ok series, db)
          /\ forall k, 0 <= k < months ->
               exists entry, series !! Z.to_nat k = Some entry
               /\ (matching (in_window clock (months - 1 - k)) db = [] ->
                   revenue entry = 0%float))
  /\ (request get_deals_analytics db clock).2 = db
  /\ (request get_dashboard_stats db clock).2 = db
  /\ (forall months, (request (get_monthly_revenue months) db clock).2 = db).
Proof.
  split; [|split; [|split; [|split; [|split]]]].
  - intros H. eexists. split; [by apply get_deals_analytics_ok|].
    split; apply reported_revenue_empty.
  - intros H. eexists. split; [by apply get_dashboard_stats_ok|].
    split; apply reported_revenue_empty.
  - intros months Hv Hw. eexists. split; [by apply get_monthly_revenue_ok|].
    intros k Hk. eexists. split; [by apply series_lookup|].
    apply reported_revenue_empty.
  - apply read_only_request, read_only_get_deals_analytics.
  - apply read_only_request, read_only_get_dashboard_stats.
  - intros months. apply read_only_request, read_only_get_monthly_revenue.
Qed.

Lemma C7_aggregates_witness :
  exists r,
    request get_deals_analytics (mkStore sample_properties ∅ ∅) sample_clock
    = (Ok r, mkStore sample_properties ∅ ∅)
    /\ da_total_revenue r = 0%float /\ da_monthly_revenue r = 0%float.
Proof.
  destruct (proj1 (C7_aggregates (mkStore sample_properties ∅ ∅) sample_clock) eq_refl)
    as (r & Hr & Ht & Hm).
  exists r. split; [exact Hr|]. split; [apply Ht|apply Hm]; reflexivity.
Defined.

(* ===================================================================== *)
(** ** Further properties of the deals router *)
(* ===================================================================== *)

(** [update_deal] on an existing deal, as a function of the store. *)
Lemma update_deal_run deal_id u db clock d :
  deals db !! deal_id = Some d ->
  request (update_deal deal_id u) db clock
  = match update_deal_row db d u with
    | Ok d' => (Ok d', with_deal db deal_id d')
    | Raise e => (Raise e, db)
    end.
Proof.
  intros Hd. unfold update_deal_row.
  destruct (DealUpdate.offer_price u) as [o|] eqn:Ho;
    [|by apply update_deal_no_offer].
  destruct (Deal.property_id d) as [pid|] eqn:Hpid; simpl.
  - destruct (properties db !! pid) as [p|] eqn:Hp.
    + destruct (truthy (Property.arv p)) eqn:Harv;
        [|by eapply update_deal_skip].
      destruct (Property.arv p) as [a|] eqn:Ha; [|done]. simpl in Harv.
      apply negb_true_iff in Harv.
      rewrite patch_offer_price_field, Ho. simpl.
      destruct o as [ov|], (Property.purchase_price p) as [pp|] eqn:Hpp; simpl.
      { pose proof (update_deal_recompute _ u db clock _ _ _ _ _ _
                      Hd Hpid Hp Ho Ha Harv Hpp) as H.
        cbv zeta in H. rewrite H. simpl. by rewrite patch_offer_price_field, Ho. }
      all: update_deal_start Hd; rewrite patch_has_offer_price, Ho; simpl;
        unfold deal_property, deal_setattr, deal_read; mrun;
        rewrite lookup_insert_eq; simpl; rewrite patch_property_id, Hpid, Hp; simpl;
        rewrite Ha; simpl; rewrite Harv; simpl;
        rewrite !lookup_alter_eq, !lookup_insert_eq; simpl;
        rewrite patch_offer_price_field, Ho, ?Hpp; done.
    + update_deal_start Hd. rewrite patch_has_offer_price, Ho. simpl.
      unfold deal_property. mrun.
      rewrite lookup_insert_eq. simpl. by rewrite patch_property_id, Hpid, Hp.
  - update_deal_start Hd. rewrite patch_has_offer_price, Ho. simpl.
    unfold deal_property. mrun.
    rewrite lookup_insert_eq. simpl. by rewrite patch_property_id, Hpid.
Qed.

Lemma get_deal_run deal_id db clock :
  request (get_deal deal_id) db clock
  = (match deals db !! deal_id with
     | Some d => Ok d
     | None => Raise (HTTPException 404 "Deal not found")
     end, db).
Proof. unfold request, get_deal. mrun. by destruct (deals db !! deal_id). Qed.

Lemma delete_deal_run deal_id db clock :
  request (delete_deal deal_id) db clock
  = match deals db !! deal_id with
    | Some _ =>
        (Ok "Deal deleted successfully"%string,
         mkStore (properties db) (leads db) (delete deal_id (deals db)))
    | None => (Raise (HTTPException 404 "Deal not found"), db)
    end.
Proof. unfold request, delete_deal. mrun. by destruct (deals db !! deal_id). Qed.

(** X1: Every by-id operation on deals answers 404 "Deal not found" for an
    id that is not in the table, and changes nothing. *)
Theorem deal_by_id_unknown deal_id db clock u st :
  deals db !! deal_id = None ->
  request (get_deal deal_id) db clock
  = (Raise (HTTPException 404 "Deal not found"), db)
  /\ request (update_deal deal_id u) db clock
     = (Raise (HTTPException 404 "Deal not found"), db)
  /\ request (update_deal_status deal_id st) db clock
     = (Raise (HTTPException 404 "Deal not found"), db)
  /\ request (delete_deal deal_id) db clock
     = (Raise (HTTPException 404 "Deal not found"), db).
Proof.
  intros H. rewrite get_deal_run, delete_deal_run, H.
  rewrite update_deal_missing, update_deal_status_missing by done. done.
Qed.

Lemma deal_by_id_unknown_witness :
  request (delete_deal 9) sample_db sample_clock
  = (Raise (HTTPException 404 "Deal not found"), sample_db).
Proof.
  apply (deal_by_id_unknown 9 sample_db sample_clock empty_patch PENDING).
  reflexivity.
Defined.

(** X2: The three writing handlers are all-or-nothing: when one of them
    raises, whatever the exception, the store is the one before the
    request. In particular the status written by [update_deal_status]
    before a failing property update is not kept. *)
Theorem deal_writes_atomic deal_id db clock u st e :
  ((request (update_deal deal_id u) db clock).1 = Raise e ->
   (request (update_deal deal_id u) db clock).2 = db)
  /\ ((request (update_deal_status deal_id st) db clock).1 = Raise e ->
      (request (update_deal_status deal_id st) db clock).2 = db)
  /\ ((request (delete_deal deal_id) db clock).1 = Raise e ->
      (request (delete_deal deal_id) db clock).2 = db).
Proof.
  destruct (deals db !! deal_id) as [d|] eqn:Hd.
  - split; [|split].
    + rewrite (update_deal_run _ _ _ _ d Hd).
      by destruct (update_deal_row db d u).
    + destruct (decide (st = CLOSED)) as [->|Hst].
      * destruct (Deal.property_id d ≫= (fun pid => properties db !! pid))
          as [p|] eqn:Hp.
        -- destruct (Deal.property_id d) as [pid|] eqn:Hpid; [|done]. simpl in Hp.
           by rewrite (update_deal_status_closed _ _ _ d pid p).
        -- by rewrite (update_deal_status_closed_unlinked _ _ _ d).
      * by rewrite (update_deal_status_other _ _ _ _ d).
    + rewrite delete_deal_run, Hd. done.
  - destruct (deal_by_id_unknown deal_id db clock u st Hd) as (_ & -> & -> & ->).
    done.
Qed.

Lemma deal_writes_atomic_witness :
  (request (update_deal_status 1 CLOSED)
     (mkStore ∅ ∅ sample_deals) sample_clock).2
  = mkStore ∅ ∅ sample_deals.
Proof.
  apply (proj1 (proj2 (deal_writes_atomic 1 (mkStore ∅ ∅ sample_deals) sample_clock
                         empty_patch CLOSED AttributeError))).
  reflexivity.
Defined.

(** X3: Deleting an existing deal removes that row and nothing else: the
    other deals, the leads and the properties are as before (a property
    marked sold by the deal stays so); afterwards reading or deleting the
    same id answers 404. *)
Theorem delete_deal_removes deal_id db clock clock' d :
  deals db !! deal_id = Some d ->
  exists db',
    request (delete_deal deal_id) db clock
    = (Ok "Deal deleted successfully"%string, db')
    /\ deals db' = delete deal_id (deals db)
    /\ properties db' = properties db
    /\ leads db' = leads db
    /\ request (get_deal deal_id) db' clock'
       = (Raise (HTTPException 404 "Deal not found"), db')
    /\ request (delete_deal deal_id) db' clock'
       = (Raise (HTTPException 404 "Deal not found"), db').
Proof.
  intros Hd. eexists. rewrite delete_deal_run, Hd.
  split; [done|]. simpl. do 3 (split; [done|]).
  rewrite get_deal_run, delete_deal_run. simpl.
  by rewrite lookup_delete_eq.
Qed.

Lemma delete_deal_removes_witness :
  exists db',
    request (delete_deal 2) sample_db sample_clock
    = (Ok "Deal deleted successfully"%string, db')
    /\ deals db' = delete 2 (deals sample_db)
    /\ properties db' = properties sample_db
    /\ leads db' = leads sample_db
    /\ request (get_deal 2) db' sample_clock
       = (Raise (HTTPException 404 "Deal not found"), db')
    /\ request (delete_deal 2) db' sample_clock
       = (Raise (HTTPException 404 "Deal not found"), db').
Proof.
  apply (delete_deal_removes 2 sample_db sample_clock sample_clock
           (sample_deal 2 CLOSED 738930)).
  reflexivity.
Defined.

Lemma update_deal_row_fields db d u d' :
  update_deal_row db d u = Ok d' ->
  Deal.property_id d' = Deal.property_id d
  /\ Deal.lead_id d' = Deal.lead_id d
  /\ Deal.agent_id d' = Deal.agent_id d
  /\ Deal.created_at d' = Deal.created_at d
  /\ Deal.offer_price d' = default (Deal.offer_price d) (DealUpdate.offer_price u)
  /\ Deal.status d' = default (Deal.status d) (DealUpdate.status u)
  /\ Deal.closing_date d' = default (Deal.closing_date d) (DealUpdate.closing_date u)
  /\ Deal.notes d' = default (Deal.notes d) (DealUpdate.notes u).
Proof.
  intros H.
  assert (Hd' : d' = apply_patch (DealUpdate.dict_exclude_unset u) d
                \/ exists fee profit,
                     d' = Deal.setattr (Deal.a_net_profit profit)
                            (Deal.setattr (Deal.a_wholesale_fee fee)
                               (apply_patch (DealUpdate.dict_exclude_unset u) d))).
  { unfold update_deal_row in H.
    repeat (case_match; simplify_eq/=); eauto.
    unfold mul_const, sub in *. repeat (case_match; simplify_eq/=); eauto. }
  destruct Hd' as [->|(fee & profit & ->)]; simpl;
    by rewrite patch_property_id, patch_lead_id, patch_agent_id, patch_created_at,
         patch_offer_price_field, patch_status_field, patch_closing_date_field,
         patch_notes_field.
Qed.

Lemma update_deal_row_idempotent db deal_id d u d' :
  update_deal_row db d u = Ok d' ->
  update_deal_row (with_deal db deal_id d') d' u = Ok d'.
Proof.
  intros H. destruct u as [[o|] [s|] [c|] [f|] [n|] [nt|]];
    unfold update_deal_row in *; simpl in *; simplify_eq/=; try done.
  all: destruct (Deal.property_id d) as [pid|] eqn:Hpid; simpl in *; [|done].
  all: destruct (properties db !! pid) as [p|] eqn:Hp; [|done].
  all: destruct (truthy (Property.arv p)) eqn:Harv; simplify_eq/=;
    try (by rewrite ?Hpid; simpl; rewrite Hp, Harv).
  all: destruct (Property.arv p) as [a|] eqn:Ha; simpl in *; try done.
  all: destruct o as [ov|], (Property.purchase_price p) as [pp|] eqn:Hpp;
    simpl in H; try discriminate H; injection H as <-;
    simpl; rewrite Hp, Ha; simpl; by rewrite Harv, Hpp.
Qed.

Lemma update_deal_success deal_id u db clock d' db' :
  request (update_deal deal_id u) db clock = (Ok d', db') ->
  exists d, deals db !! deal_id = Some d
            /\ update_deal_row db d u = Ok d'
            /\ db' = with_deal db deal_id d'.
Proof.
  intros H. destruct (deals db !! deal_id) as [d|] eqn:Hd.
  - rewrite (update_deal_run _ _ _ _ d Hd) in H.
    destruct (update_deal_row db d u) as [d1|e] eqn:Hrow; simplify_eq. by exists d.
  - by rewrite update_deal_missing in H.
Qed.

(** X4: A successful [update_deal] rewrites one row and nothing else: the
    other deals, the leads and the properties are as before; the row keeps
    its property, lead, agent and creation date; offer price, status,
    closing date and notes are the patch's value where the patch sets the
    field (null included) and the old value where it does not; and the row
    returned is the row a following [get_deal] reads. *)
Theorem update_deal_frame deal_id u db clock clock' d' db' :
  request (update_deal deal_id u) db clock = (Ok d', db') ->
  exists d,
    deals db !! deal_id = Some d
    /\ deals db' = <[deal_id := d']> (deals db)
    /\ properties db' = properties db
    /\ leads db' = leads db
    /\ Deal.property_id d' = Deal.property_id d
    /\ Deal.lead_id d' = Deal.lead_id d
    /\ Deal.agent_id d' = Deal.agent_id d
    /\ Deal.created_at d' = Deal.created_at d
    /\ Deal.offer_price d' = default (Deal.offer_price d) (DealUpdate.offer_price u)
    /\ Deal.status d' = default (Deal.status d) (DealUpdate.status u)
    /\ Deal.closing_date d' = default (Deal.closing_date d) (DealUpdate.closing_date u)
    /\ Deal.notes d' = default (Deal.notes d) (DealUpdate.notes u)
    /\ request (get_deal deal_id) db' clock' = (Ok d', db').
Proof.
  intros H. destruct (update_deal_success _ _ _ _ _ _ H) as (d & Hd & Hrow & ->).
  exists d. split; [done|]. do 3 (split; [done|]).
  destruct (update_deal_row_fields _ _ _ _ Hrow)
    as (? & ? & ? & ? & ? & ? & ? & ?).
  do 8 (split; [done|]).
  rewrite get_deal_run. simpl. by rewrite lookup_insert_eq.
Qed.

Lemma update_deal_frame_witness :
  exists d d',
    deals sample_db !! 1 = Some d
    /\ Deal.property_id d' = Deal.property_id d
    /\ Deal.status d' = default (Deal.status d)
                          (DealUpdate.status (patch_offer_price 150000%float)).
Proof.
  destruct (update_deal_frame 1 (patch_offer_price 150000%float) sample_db
              sample_clock sample_clock _ _ eq_refl)
    as (d & Hd & _ & _ & _ & Hp & _ & _ & _ & _ & Hs & _).
  eexists d, _. split; [exact Hd|]. split; [exact Hp|exact Hs].
Defined.

Lemma with_deal_id db deal_id d :
  deals db !! deal_id = Some d -> with_deal db deal_id d = db.
Proof. intros H. destruct db. unfold with_deal. simpl in *. by rewrite insert_id. Qed.

(** X5: A patch that sets no field succeeds on an existing deal, returns its
    row and leaves the store exactly as it was. *)
Theorem update_deal_empty_patch deal_id db clock d :
  deals db !! deal_id = Some d ->
  request (update_deal deal_id empty_patch) db clock = (Ok d, db).
Proof.
  intros Hd. rewrite (update_deal_run _ _ _ _ d Hd). simpl.
  by rewrite with_deal_id.
Qed.

Lemma update_deal_empty_patch_witness :
  request (update_deal 3 empty_patch) sample_db sample_clock
  = (Ok (sample_deal 3 APPROVED 738940), sample_db).
Proof. apply (update_deal_empty_patch 3 sample_db sample_clock). reflexivity. Defined.

(** X6: [update_deal] is idempotent: sending again a patch that succeeded
    succeeds again, returns the same row and leaves the store as the first
    application left it. *)
Theorem update_deal_idempotent deal_id u db clock clock' d' db' :
  request (update_deal deal_id u) db clock = (Ok d', db') ->
  request (update_deal deal_id u) db' clock' = (Ok d', db').
Proof.
  intros H. destruct (update_deal_success _ _ _ _ _ _ H) as (d & Hd & Hrow & ->).
  rewrite (update_deal_run _ _ _ _ d') by (simpl; apply lookup_insert_eq).
  rewrite (update_deal_row_idempotent _ _ _ _ _ Hrow).
  unfold with_deal. simpl. by rewrite insert_insert_eq.
Qed.

Lemma update_deal_idempotent_witness :
  request (update_deal 1 (patch_offer_price 150000%float))
    (request (update_deal 1 (patch_offer_price 150000%float)) sample_db sample_clock).2
    sample_clock
  = request (update_deal 1 (patch_offer_price 150000%float)) sample_db sample_clock.
Proof.
  apply (update_deal_idempotent 1 (patch_offer_price 150000%float) sample_db
           sample_clock sample_clock).
  vm_compute. reflexivity.
Defined.

(** X7: [update_deal] on an existing deal raises in two situations only, both
    reached through a patch that sets [offer_price]: [AttributeError] when
    the deal has no property row (null or dangling [property_id]), and
    [TypeError] when the property's after-repair value is truthy and the
    patched offer price or the purchase price is null. A patch without
    [offer_price] never raises. *)
Theorem update_deal_raises_iff deal_id u db clock d e :
  deals db !! deal_id = Some d ->
  (request (update_deal deal_id u) db clock).1 = Raise e <->
  exists o,
    DealUpdate.offer_price u = Some o
    /\ match Deal.property_id d ≫= (fun pid => properties db !! pid) with
       | None => e = AttributeError
       | Some p =>
           e = TypeError
           /\ truthy (Property.arv p) = true
           /\ (o = None \/ Property.purchase_price p = None)
       end.
Proof.
  intros Hd. rewrite (update_deal_run _ _ _ _ d Hd). unfold update_deal_row.
  rewrite patch_offer_price_field.
  destruct (DealUpdate.offer_price u) as [o|]; simpl.
  - destruct (Deal.property_id d ≫= _) as [p|]; simpl.
    + destruct (truthy (Property.arv p)) eqn:Harv.
      * destruct (Property.arv p) as [a|]; [|done]. simpl.
        destruct o as [ov|], (Property.purchase_price p) as [pp|]; simpl;
          split; try done; try (intros [= <-]); eauto 10;
          intros (o' & [= <-] & -> & _ & [?|?]); done.
      * simpl. split; [done|]. by intros (o' & _ & _ & ? & _).
    + split; [intros [= <-]; eauto|]. by intros (o' & _ & ->).
  - split; [done|]. by intros (o' & ? & _).
Qed.

Lemma update_deal_raises_iff_witness :
  (request (update_deal 1 (DealUpdate.mk (Some None) None None None None None))
     sample_db sample_clock).1
  = Raise TypeError.
Proof.
  apply (proj2 (update_deal_raises_iff 1 _ sample_db sample_clock
                  (sample_deal 1 PENDING 738900) TypeError eq_refl)).
  exists None. split; [reflexivity|]. simpl.
  split; [reflexivity|]. split; [reflexivity|]. left. reflexivity.
Defined.

(** X8: A deal without property row (null or dangling [property_id]) cannot
    be closed: the request raises [AttributeError] and the store is left
    as it was, so the deal keeps its status. Any other status is written
    to it: the row then has the new status, its property, lead, agent,
    offer price, closing date, fee, profit, notes and creation date have
    the values they had, and the other deals, the properties and the
    leads are those of before. *)
Theorem update_deal_status_unlinked deal_id db clock d :
  deals db !! deal_id = Some d ->
  Deal.property_id d ≫= (fun pid => properties db !! pid) = None ->
  request (update_deal_status deal_id CLOSED) db clock = (Raise AttributeError, db)
  /\ forall st, st <> CLOSED ->
       exists db' d',
         request (update_deal_status deal_id st) db clock = (Ok st, db')
         /\ deals db' !! deal_id = Some d'
         /\ Deal.status d' = Some st
         /\ Deal.property_id d' = Deal.property_id d
         /\ Deal.lead_id d' = Deal.lead_id d
         /\ Deal.agent_id d' = Deal.agent_id d
         /\ Deal.offer_price d' = Deal.offer_price d
         /\ Deal.closing_date d' = Deal.closing_date d
         /\ Deal.wholesale_fee d' = Deal.wholesale_fee d
         /\ Deal.net_profit d' = Deal.net_profit d
         /\ Deal.notes d' = Deal.notes d
         /\ Deal.created_at d' = Deal.created_at d
         /\ (forall other, other <> deal_id -> deals db' !! other = deals db !! other)
         /\ properties db' = properties db
         /\ leads db' = leads db.
Proof.
  intros Hd Hp. split.
  - by apply update_deal_status_closed_unlinked with d.
  - intros st Hst. do 2 eexists.
    split; [by apply (update_deal_status_other _ _ _ _ d)|]. simpl.
    split; [apply lookup_insert_eq|]. simpl. do 10 (split; [reflexivity|]).
    split; [|done]. intros other Hne. by apply lookup_insert_ne.
Qed.

Lemma update_deal_status_unlinked_witness :
  request (update_deal_status 1 CLOSED) (mkStore ∅ ∅ sample_deals) sample_clock
  = (Raise AttributeError, mkStore ∅ ∅ sample_deals).
Proof.
  refine (proj1 (update_deal_status_unlinked 1 (mkStore ∅ ∅ sample_deals) sample_clock
                   (sample_deal 1 PENDING 738900) _ _)); reflexivity.
Defined.

(** X9: Closing again a deal that is already closed succeeds: the deal is
    still closed and the linked property still sold, with the
    after-repair value and the purchase price it had; its sold date is the
    clock reading of the second request, as after the first it was the
    reading of the first; the other deals, the other properties and the
    leads are those of before. *)
Theorem update_deal_status_close_twice deal_id db clock clock' d pid p :
  deals db !! deal_id = Some d ->
  Deal.property_id d = Some pid ->
  properties db !! pid = Some p ->
  exists db1 db2 p1 p2 d2,
    request (update_deal_status deal_id CLOSED) db clock = (Ok CLOSED, db1)
    /\ request (update_deal_status deal_id CLOSED) db1 clock' = (Ok CLOSED, db2)
    /\ properties db1 !! pid = Some p1
    /\ Property.status p1 = Some SOLD
    /\ Property.sold_date p1 = Some (clock 0%nat)
    /\ properties db2 !! pid = Some p2
    /\ Property.status p2 = Some SOLD
    /\ Property.sold_date p2 = Some (clock' 0%nat)
    /\ Property.arv p2 = Property.arv p
    /\ Property.purchase_price p2 = Property.purchase_price p
    /\ deals db2 !! deal_id = Some d2
    /\ Deal.status d2 = Some CLOSED
    /\ Deal.property_id d2 = Some pid
    /\ (forall other, other <> deal_id -> deals db2 !! other = deals db !! other)
    /\ (forall other, other <> pid -> properties db2 !! other = properties db !! other)
    /\ leads db2 = leads db.
Proof.
  intros Hd Hpid Hp. do 5 eexists.
  split; [by apply (update_deal_status_closed _ _ _ d pid p)|].
  split.
  { eapply update_deal_status_closed; simpl.
    - apply lookup_insert_eq.
    - exact Hpid.
    - apply lookup_insert_eq. }
  simpl.
  split; [apply lookup_insert_eq|]. do 2 (split; [reflexivity|]).
  split; [apply lookup_insert_eq|]. do 4 (split; [reflexivity|]).
  split; [apply lookup_insert_eq|]. split; [reflexivity|]. split; [exact Hpid|].
  split; [|split; [|done]]; intros other Hne; by rewrite !lookup_insert_ne.
Qed.

Lemma update_deal_status_close_twice_witness :
  exists db1 db2,
    request (update_deal_status 1 CLOSED) sample_db sample_clock = (Ok CLOSED, db1)
    /\ request (update_deal_status 1 CLOSED) db1 (later sample_clock 1)
       = (Ok CLOSED, db2).
Proof.
  destruct (update_deal_status_close_twice 1 sample_db sample_clock
              (later sample_clock 1) _ 1 _ eq_refl eq_refl eq_refl)
    as (db1 & db2 & _ & _ & _ & H1 & H2 & _).
  exists db1, db2. split; [exact H1|exact H2].
Defined.

(** X10: [get_deals] returns a page of the deals that pass the filters: at
    most [limit] rows, no deal twice, each the stored row of its id and
    matching the status and the non-zero agent asked for; from the start
    and with a limit no smaller than the table it returns every matching
    deal; an agent id of 0 filters nothing; the store is unchanged. *)
Theorem get_deals_page skip limit status agent_id db clock :
  0 <= skip -> 0 <= limit ->
  exists rows,
    request (get_deals skip limit status agent_id) db clock = (Ok rows, db)
    /\ Z.of_nat (length rows) <= limit
    /\ NoDup rows.*1
    /\ (forall id d, (id, d) ∈ rows ->
          deals db !! id = Some d /\ deal_matches status agent_id d)
    /\ (skip = 0 -> Z.of_nat (size (deals db)) <= limit ->
        forall id d, deals db !! id = Some d -> deal_matches status agent_id d ->
                     (id, d) ∈ rows)
    /\ request (get_deals skip limit status (Some 0)) db clock
       = request (get_deals skip limit status None) db clock.
Proof.
  intros Hskip Hlimit. unfold request, get_deals. mrun.
  set (q1 := match status with
             | Some st => filter (fun r => status_is st r.2 = true) (map_to_list (deals db))
             | None => map_to_list (deals db)
             end).
  set (q2 := match agent_id with
             | Some a => if bool_decide (a = 0) then q1
                         else filter (fun r => Deal.agent_id r.2 = Some a) q1
             | None => q1
             end).
  assert (Hq1 : q1 `sublist_of` map_to_list (deals db)).
  { subst q1. destruct status; [apply sublist_filter|done]. }
  assert (Hq2 : q2 `sublist_of` map_to_list (deals db)).
  { subst q2. destruct agent_id as [a|]; [|done].
    destruct (bool_decide (a = 0)); [done|].
    etrans; [apply sublist_filter|done]. }
  assert (Hin : forall id d, (id, d) ∈ q2 <->
                  deals db !! id = Some d /\ deal_matches status agent_id d).
  { intros id d. subst q2 q1. unfold deal_matches, status_is.
    destruct agent_id as [a|]; [destruct (bool_decide_reflect (a = 0))|];
      destruct status as [st|];
      rewrite ?list_elem_of_filter, ?elem_of_map_to_list; simpl;
      rewrite ?bool_decide_eq_true; naive_solver. }
  assert (Hrows : take (Z.to_nat limit) (drop (Z.to_nat skip) q2) `sublist_of` q2).
  { etrans; [apply sublist_take|apply sublist_drop]. }
  eexists. split; [reflexivity|].
  split; [rewrite length_take; lia|].
  split.
  { eapply sublist_NoDup; [apply (NoDup_fst_map_to_list (deals db))|].
    apply fmap_sublist. by etrans. }
  split.
  { intros id d Hid. apply Hin. by eapply elem_of_sublist. }
  split; [|done].
  intros -> Hsize id d Hd Hm. rewrite drop_0, take_ge.
  - apply Hin. done.
  - apply sublist_length in Hq2. rewrite length_map_to_list in Hq2. lia.
Qed.

Lemma get_deals_page_witness :
  exists rows,
    request (get_deals 0 100 (Some CLOSED) None) sample_db sample_clock
    = (Ok rows, sample_db)
    /\ Z.of_nat (length rows) <= 100
    /\ NoDup rows.*1.
Proof.
  destruct (get_deals_page 0 100 (Some CLOSED) None sample_db sample_clock)
    as (rows & H1 & H2 & H3 & _); [lia|lia|].
  exists rows. split; [exact H1|]. split; [exact H2|exact H3].
Defined.

(* ===================================================================== *)
(** ** Further properties of the dashboard router *)
(* ===================================================================== *)

Lemma sql_count_all {A} (t : gmap Z A) : sql_count (fun _ => true) t = Z.of_nat (size t).
Proof.
  unfold sql_count. f_equal. rewrite <- length_map_to_list, <- (length_fmap snd).
  induction ((map_to_list t).*2) as [|r l IH]; [done|].
  rewrite filter_cons_True by done. simpl. by rewrite IH.
Qed.

Lemma sql_count_nonneg {A} (where_ : A -> bool) (t : gmap Z A) : 0 <= sql_count where_ t.
Proof. unfold sql_count. apply Nat2Z.is_nonneg. Qed.

Lemma sql_count_le_all {A} (where_ : A -> bool) (t : gmap Z A) :
  sql_count where_ t <= sql_count (fun _ => true) t.
Proof.
  rewrite sql_count_all. unfold sql_count.
  rewrite <- length_map_to_list, <- (length_fmap snd).
  apply inj_le, length_filter.
Qed.

Lemma foldr_add_plus {K} (f g : K -> Z) (ks : list K) :
  foldr Z.add 0 ((fun k => f k + g k) <$> ks)
  = foldr Z.add 0 (f <$> ks) + foldr Z.add 0 (g <$> ks).
Proof.
  induction ks as [|k ks IH]; [done|].
  rewrite !fmap_cons. cbn [foldr]. rewrite IH. lia.
Qed.

Lemma foldr_add_indicator_absent {K} `{EqDecision K} (x : K) (ks : list K) :
  x ∉ ks -> foldr Z.add 0 ((fun k => if decide (x = k) then 1 else 0) <$> ks) = 0.
Proof.
  induction ks as [|k ks IH]; intros Hx; [done|].
  rewrite fmap_cons. cbn [foldr].
  apply not_elem_of_cons in Hx as [Hne Hx].
  rewrite decide_False by done. by rewrite IH.
Qed.

Lemma foldr_add_indicator {K} `{EqDecision K} (x : K) (ks : list K) :
  NoDup ks -> x ∈ ks ->
  foldr Z.add 0 ((fun k => if decide (x = k) then 1 else 0) <$> ks) = 1.
Proof.
  induction 1 as [|k ks Hk Hks IH]; intros Hx; [by apply elem_of_nil in Hx|].
  rewrite fmap_cons. cbn [foldr]. destruct (decide (x = k)) as [->|Hne].
  - by rewrite foldr_add_indicator_absent.
  - apply elem_of_cons in Hx as [?|Hx]; [done|]. by rewrite IH.
Qed.

(** Each row is counted under exactly one key of a duplicate-free list of
    keys that contains its status. *)
Lemma count_partition {A S} `{EqDecision S} (column : A -> option S)
    (ks : list (option S)) (rows : list A) :
  NoDup ks -> (forall r, r ∈ rows -> column r ∈ ks) ->
  foldr Z.add 0
    ((fun k => Z.of_nat (length (filter (fun r => bool_decide (column r = k) = true) rows)))
       <$> ks)
  = Z.of_nat (length rows).
Proof.
  intros Hks. induction rows as [|r rows IH]; intros Hin.
  - clear. induction ks as [|k ks IH]; [done|].
    rewrite fmap_cons. cbn [foldr]. by rewrite IH.
  - assert (Hr : column r ∈ ks) by (apply Hin; left).
    specialize (IH (fun r' H' => Hin r' (list_elem_of_further _ _ _ H'))).
    rewrite length_cons, Nat2Z.inj_succ, <- IH. clear IH Hin.
    rewrite <- Z.add_1_l, <- (foldr_add_indicator (column r) ks Hks Hr).
    rewrite <- foldr_add_plus. f_equal. apply list_fmap_ext. intros _ k _.
    destruct (decide (column r = k)) as [He|He].
    + rewrite filter_cons_True by (by apply bool_decide_eq_true).
      rewrite length_cons. lia.
    + rewrite filter_cons_False by (by rewrite bool_decide_eq_true).
      lia.
Qed.

Lemma total_count_filter_positive {S} (l : list (option S * Z)) :
  (forall g, g ∈ l -> 0 <= g.2) ->
  total_count (filter (fun g => 0 < g.2) l) = total_count l.
Proof.
  unfold total_count. induction l as [|g l IH]; intros H; [done|].
  assert (Hg : 0 <= g.2) by (apply H; left).
  assert (IH' := IH (fun g' H' => H g' (list_elem_of_further _ _ _ H'))).
  destruct (decide (0 < g.2)).
  - rewrite filter_cons_True by done. rewrite !fmap_cons. cbn [foldr].
    by rewrite IH'.
  - rewrite filter_cons_False by done. rewrite fmap_cons. cbn [foldr].
    rewrite IH'. assert (g.2 = 0) as -> by lia. done.
Qed.

Section status_counts_facts.
Context {A S : Type} `{EqDecision S}.
Variables (members : list S) (column : A -> option S) (t : gmap Z A).
Hypothesis members_NoDup : NoDup members.
Hypothesis members_all : forall s, s ∈ members.

Lemma keys_NoDup : NoDup (None :: (Some <$> members)).
Proof.
  constructor.
  - rewrite list_elem_of_fmap. by intros (s & ? & _).
  - apply NoDup_fmap; [|done]. by intros ?? [= ->].
Qed.

Lemma keys_all (k : option S) : k ∈ None :: (Some <$> members).
Proof.
  destruct k as [s|]; [|left]. right. apply list_elem_of_fmap. eauto.
Qed.

Lemma status_counts_total :
  total_count (status_counts members column t) = Z.of_nat (size t).
Proof.
  unfold status_counts. rewrite total_count_filter_positive.
  - unfold total_count. rewrite <- list_fmap_compose.
    rewrite <- length_map_to_list, <- (length_fmap snd).
    rewrite <- (count_partition column _ _ keys_NoDup) by (intros; apply keys_all).
    reflexivity.
  - intros g (k & -> & _)%list_elem_of_fmap. apply sql_count_nonneg.
Qed.

Lemma status_counts_elem st n :
  (st, n) ∈ status_counts members column t
  <-> n = rows_with_status column st t /\ 0 < n.
Proof.
  unfold status_counts, rows_with_status.
  rewrite list_elem_of_filter, list_elem_of_fmap. simpl. split.
  - intros (Hn & k & [= -> ->] & _). done.
  - intros [-> Hn]. split; [done|]. exists st. split; [done|apply keys_all].
Qed.

Lemma status_counts_keys : NoDup (status_counts members column t).*1.
Proof.
  unfold status_counts.
  eapply sublist_NoDup; [apply keys_NoDup|].
  etrans; [apply fmap_sublist, sublist_filter|].
  rewrite <- list_fmap_compose. unfold compose. simpl. by rewrite list_fmap_id.
Qed.
End status_counts_facts.

Lemma PropertyStatus_members_ok :
  NoDup PropertyStatus_members /\ forall s, s ∈ PropertyStatus_members.
Proof.
  split; [by apply (bool_decide_unpack _)|].
  intros []; unfold PropertyStatus_members; set_solver.
Qed.

Lemma LeadStatus_members_ok :
  NoDup LeadStatus_members /\ forall s, s ∈ LeadStatus_members.
Proof.
  split; [by apply (bool_decide_unpack _)|].
  intros []; unfold LeadStatus_members; set_solver.
Qed.

Lemma DealStatus_members_ok :
  NoDup DealStatus_members /\ forall s, s ∈ DealStatus_members.
Proof.
  split; [by apply (bool_decide_unpack _)|].
  intros []; unfold DealStatus_members; set_solver.
Qed.

Lemma deals_by_status_counts (t : gmap Z Deal.t) :
  deals_by_status t = status_counts DealStatus_members Deal.status t.
Proof. reflexivity. Qed.

(** X11: The three status distributions: the handler returns one entry per
    status present in its table (the null status included), each with the
    positive number of rows that have it, no status twice, and the counts
    add up to the number of rows of the table. The store is unchanged. *)
Theorem status_distributions db clock :
  (exists dist,
     request get_property_status_distribution db clock = (Ok dist, db)
     /\ total_count dist = Z.of_nat (size (properties db))
     /\ NoDup dist.*1
     /\ forall st n, (st, n) ∈ dist
          <-> n = rows_with_status Property.status st (properties db) /\ 0 < n)
  /\ (exists dist,
        request get_lead_status_distribution db clock = (Ok dist, db)
        /\ total_count dist = Z.of_nat (size (leads db))
        /\ NoDup dist.*1
        /\ forall st n, (st, n) ∈ dist
             <-> n = rows_with_status Lead.status st (leads db) /\ 0 < n)
  /\ (exists dist,
        request get_deal_status_distribution db clock = (Ok dist, db)
        /\ total_count dist = Z.of_nat (size (deals db))
        /\ NoDup dist.*1
        /\ forall st n, (st, n) ∈ dist
             <-> n = rows_with_status Deal.status st (deals db) /\ 0 < n).
Proof.
  destruct PropertyStatus_members_ok as [Hp1 Hp2].
  destruct LeadStatus_members_ok as [Hl1 Hl2].
  destruct DealStatus_members_ok as [Hd1 Hd2].
  split; [|split]; eexists; (split; [reflexivity|]); simpl;
    rewrite ?deals_by_status_counts.
  - split; [by apply status_counts_total|].
    split; [by apply status_counts_keys|]. intros. by apply status_counts_elem.
  - split; [by apply status_counts_total|].
    split; [by apply status_counts_keys|]. intros. by apply status_counts_elem.
  - split; [by apply status_counts_total|].
    split; [by apply status_counts_keys|]. intros. by apply status_counts_elem.
Qed.

(** X12: The dashboard statistics and the deals analytics agree: asked of the
    same store at the same time they report the same number of deals, the
    same total revenue and the same last-30-days revenue; in the analytics
    the per-status counts add up to the total; in the dashboard each
    filtered count lies between 0 and the total of its table. *)
Theorem dashboard_analytics_consistent db clock :
  in_range (thirty_days_before (clock 0%nat)) = true ->
  exists r a,
    request get_dashboard_stats db clock = (Ok r, db)
    /\ request get_deals_analytics db clock = (Ok a, db)
    /\ total_deals r = da_total_deals a
    /\ total_deals r = Z.of_nat (size (deals db))
    /\ total_revenue r = da_total_revenue a
    /\ monthly_revenue r = da_monthly_revenue a
    /\ total_count (da_deals_by_status a) = da_total_deals a
    /\ 0 <= pending_deals r <= total_deals r
    /\ 0 <= available_properties r <= total_properties r
    /\ 0 <= new_leads r <= total_leads r.
Proof.
  intros H. do 2 eexists.
  split; [by apply get_dashboard_stats_ok|].
  split; [by apply get_deals_analytics_ok|]. simpl.
  destruct DealStatus_members_ok as [Hd1 Hd2].
  split; [done|]. split; [apply sql_count_all|]. do 2 (split; [done|]).
  split.
  { rewrite deals_by_status_counts, sql_count_all. by apply status_counts_total. }
  repeat split; first [apply sql_count_nonneg | apply sql_count_le_all].
Qed.

Lemma dashboard_analytics_consistent_witness :
  exists r a,
    request get_dashboard_stats sample_db sample_clock = (Ok r, sample_db)
    /\ request get_deals_analytics sample_db sample_clock = (Ok a, sample_db)
    /\ total_deals r = da_total_deals a.
Proof.
  destruct (dashboard_analytics_consistent sample_db sample_clock eq_refl)
    as (r & a & H1 & H2 & H3 & _).
  exists r, a. split; [exact H1|]. split; [exact H2|exact H3].
Defined.

(* ===================================================================== *)
(** ** Further properties of the financial calculation *)
(* ===================================================================== *)

(** X13: The calculation raises in one situation only, and then with
    [TypeError]: a truthy after-repair value and offer price with a null
    purchase price. When it returns, fee and profit are null together or
    present together. *)
Theorem financials_outcomes arv purchase_price offer_price :
  (forall e, computeDealFinancials arv purchase_price offer_price = Raise e <->
     e = TypeError /\ truthy arv = true /\ truthy offer_price = true
     /\ purchase_price = None)
  /\ (forall fee profit,
        computeDealFinancials arv purchase_price offer_price = Ok (fee, profit) ->
        (fee = None /\ profit = None /\ (truthy arv = false \/ truthy offer_price = false))
        \/ (is_Some fee /\ is_Some profit
            /\ truthy arv = true /\ truthy offer_price = true)).
Proof.
  unfold computeDealFinancials.
  destruct (truthy arv) eqn:Ha, (truthy offer_price) eqn:Ho; simpl.
  2-4: split; [intros e; split; [done|]; intros (_ & ? & ? & _); done|];
       intros fee profit [= <- <-]; left; eauto.
  destruct arv as [a|], offer_price as [o|]; try done. simpl.
  destruct purchase_price as [p|]; simpl.
  - split; [intros e; split; [done|by intros (_ & _ & _ & ?)]|].
    intros fee profit [= <- <-]. right. eauto.
  - split; [|done]. intros e. split; [by intros [= <-]|by intros (-> & _)].
Qed.

(* ===================================================================== *)
(** ** Further properties of [create_deal] *)
(* ===================================================================== *)

(** X14: The existence checks run in order: a missing property is reported as
    "Property not found" whether or not the lead exists, a missing lead as
    "Lead not found" only when the property exists; the store is left as
    it was. *)
Theorem create_deal_not_found_detail deal uid db clock :
  (properties db !! DealCreate.property_id deal = None ->
   request (create_deal deal uid) db clock
   = (Raise (HTTPException 404 "Property not found"), db))
  /\ (is_Some (properties db !! DealCreate.property_id deal) ->
      leads db !! DealCreate.lead_id deal = None ->
      request (create_deal deal uid) db clock
      = (Raise (HTTPException 404 "Lead not found"), db)).
Proof.
  unfold request. rewrite create_deal_run. simpl. split.
  - by intros ->.
  - intros [p ->] ->. done.
Qed.

Lemma create_deal_not_found_detail_witness :
  request (create_deal (DealCreate.mk 9 9 140000%float None None None None 7) 7)
    sample_db sample_clock
  = (Raise (HTTPException 404 "Property not found"), sample_db).
Proof.
  apply (proj1 (create_deal_not_found_detail _ 7 sample_db sample_clock)).
  reflexivity.
Defined.

Lemma financials_outcomes_witness :
  computeDealFinancials (Some 200000%float) None (Some 140000%float) = Raise TypeError.
Proof.
  apply (proj1 (financials_outcomes (Some 200000%float) None (Some 140000%float))
           TypeError).
  repeat split.
Defined.

Lemma status_distributions_witness :
  exists dist,
    request get_deal_status_distribution sample_db sample_clock = (Ok dist, sample_db)
    /\ (Some CLOSED, 2) ∈ dist.
Proof.
  destruct (status_distributions sample_db sample_clock) as (_ & _ & dist & H & _ & _ & Hin).
  exists dist. split; [exact H|]. apply Hin. split; [reflexivity|lia].
Defined.

(* ===================================================================== *)
(** ** Further properties of [get_monthly_revenue] *)
(* ===================================================================== *)

(** X15: Asked for no month, or for a negative number of months, the handler
    returns the empty list, whatever the clock. *)
Theorem get_monthly_revenue_nonpositive months db clock :
  months <= 0 -> request (get_monthly_revenue months) db clock = (Ok [], db).
Proof.
  intros H. unfold request, get_monthly_revenue, range.
  replace (Z.to_nat months) with 0%nat by lia. reflexivity.
Qed.

Lemma get_monthly_revenue_nonpositive_witness :
  request (get_monthly_revenue (-3)) sample_db sample_clock = (Ok [], sample_db).
Proof. apply get_monthly_revenue_nonpositive. lia. Defined.

(** X16: The series is all or nothing: when the start of some window among the
    [months] asked for is not a representable date (while the windows
    before it are), the request raises [OverflowError]; no partial series
    is returned and the store is unchanged. *)
Theorem get_monthly_revenue_out_of_range months k db clock :
  0 <= k < months ->
  valid_clock clock (2 * Z.to_nat k) ->
  windows_representable clock k ->
  in_range (window_start clock k) = false ->
  request (get_monthly_revenue months) db clock = (Raise OverflowError, db).
Proof. apply get_monthly_revenue_overflow. Qed.

Lemma get_monthly_revenue_out_of_range_witness :
  request (get_monthly_revenue 25000) sample_db sample_clock
  = (Raise OverflowError, sample_db).
Proof.
  apply (get_monthly_revenue_out_of_range 25000 24631).
  - lia.
  - apply sample_clock_valid. lia.
  - apply sample_windows. lia.
  - reflexivity.
Defined.









